(** * KafkaSource status lifecycle and ConsumerGroup ownership routing

    A shallow embedding of
    [control-plane/pkg/apis/sources/v1/kafka_lifecycle.go] (package [v1]:
    the condition wrappers of [KafkaSourceStatus]) and of the
    [consumergroup] package's [Filter] and [Enqueue].

    Conventions of the embedding:
    - a Go pointer argument is an [option]: [None] is the nil pointer;
    - a call that may hit a nil dereference returns a [Result];
    - a method with receiver [s *KafkaSourceStatus] is a function on the
      status value the (allocated) receiver points to, returning the
      updated status;
    - the package variable [KafkaSourceCondSet] is read by every method, and
      can be replaced; the methods take its current value as argument [cs];
    - the clock read when a condition changes is the argument [now];
    - the callback of [Enqueue] acts on the state of the queue's owner;
      [EnqueueFunc] takes it as the func value it is, nil or panicking
      included. *)

From Stdlib Require Import ZArith List Ascii String.
From stdpp Require Import gmap strings list fin_maps.

Local Open Scope string_scope.

(** ** Outcome of a call: normal return, or a run-time panic *)

Inductive RuntimeError : Type :=
| NilPointerDereference.

Inductive Result (A : Type) : Type :=
| Returns (a : A)
| Panics (e : RuntimeError).

Arguments Returns {A} a.
Arguments Panics {A} e.

#[global] Instance Result_ret : MRet Result := fun A a => Returns a.

#[global] Instance Result_bind : MBind Result := fun A B k r =>
  match r with
  | Returns a => k a
  | Panics e => Panics e
  end.

(** [*p] for a pointer [p]. *)
Definition deref {A : Type} (p : option A) : Result A :=
  match p with
  | Some a => Returns a
  | None => Panics NilPointerDereference
  end.

(** ** Package [fmt] *)

Module fmt.

(** What [fmt.Sprintf] appends for operands that no verb consumed. *)
Fixpoint extraOperands (first : bool) (args : list string) : string :=
  match args with
  | [] => if first then "" else ")"
  | a :: rest =>
      (if first then "%!(EXTRA string=" else ", string=") +:+ a +:+
      extraOperands false rest
  end.

(** [fmt.Sprintf] on string operands.  The fragment that is rendered as Go
    does is: literal text, [%%], and the verbs [%s] and [%v] without flags,
    with Go's [%!s(MISSING)] for a verb without operand and [%!(EXTRA ...)]
    for operands without verb.  Any other verb is rendered as a verb that
    does not apply to a string.  The two formats the lifecycle file passes
    itself, and every message the callers pass ready-made (a format without
    [%], no operands), lie in the fragment. *)
Fixpoint Sprintf (format : string) (args : list string) : string :=
  match format with
  | EmptyString => extraOperands true args
  | String c rest =>
      if decide (c = "%"%char) then
        match rest with
        | EmptyString => "%!(NOVERB)" +:+ extraOperands true args
        | String v rest' =>
            if decide (v = "%"%char) then String "%" (Sprintf rest' args)
            else
              match args with
              | [] => "%!" +:+ String v "(MISSING)" +:+ Sprintf rest' []
              | a :: args' =>
                  if decide (v = "s"%char \/ v = "v"%char)
                  then a +:+ Sprintf rest' args'
                  else "%!" +:+ String v "(string=" +:+ a +:+ ")" +:+
                       Sprintf rest' args'
              end
        end
      else String c (Sprintf rest args)
  end.

End fmt.

(** ** Package [strings] *)

Module strings.

(** [strings.ToLower] maps by Unicode tables that are no part of this
    development: the router is stated for any lower-casing function. *)
Class Folding : Type := { ToLower : string -> string }.

(** Go's [ToLower] on ASCII text, the alphabet of Kubernetes kind names. *)
Definition lowerASCII (c : ascii) : ascii :=
  let n := nat_of_ascii c in
  if (65 <=? n)%nat && (n <=? 90)%nat then ascii_of_nat (n + 32) else c.

Fixpoint ToLowerASCII (s : string) : string :=
  match s with
  | EmptyString => EmptyString
  | String c rest => String (lowerASCII c) (ToLowerASCII rest)
  end.

Definition ASCII : Folding := {| ToLower := ToLowerASCII |}.

End strings.

(** ** Package [knative.dev/pkg/apis]: conditions and their manager *)

Module apis.

Definition ConditionType := string.

Definition ConditionReady : ConditionType := "Ready".

Inductive ConditionStatus : Type :=
| ConditionTrue
| ConditionFalse
| ConditionUnknown.

#[global] Instance ConditionStatus_eq_dec : EqDecision ConditionStatus.
Proof. solve_decision. Defined.

Inductive ConditionSeverity : Type :=
| ConditionSeverityError
| ConditionSeverityInfo.

(** Timestamps, as read from the clock. *)
Definition Time := Z.

Record Condition : Type := {
  Type_ : ConditionType;
  Status : ConditionStatus;
  Severity : ConditionSeverity;
  LastTransitionTime : Time;
  Reason : string;
  Message : string
}.

(** The conditions of one status: condition type to condition. *)
Abbreviation Conditions := (gmap ConditionType Condition).

(** [apis.URL] and its emptiness test are declared outside the lifecycle
    file; the wrappers only ask a non-nil URL whether it is empty. *)
Class URLType : Type := { URL : Type; IsEmpty : URL -> bool }.

(** The dependency declaration: the aggregate ("happy") condition type and
    the ordered dependent condition types. *)
Record ConditionSet : Type := {
  happy : ConditionType;
  dependents : list ConditionType
}.

(** Modelled from the spec: [apis.NewLivingConditionSet], which is not part
    of the sources; "an ordered list of dependent condition types plus the
    implicit aggregate condition type (Ready)". *)
Definition NewLivingConditionSet (d : list ConditionType) : ConditionSet :=
  {| happy := ConditionReady; dependents := d |}.

(** Modelled from the spec: the severity the manager stamps on a condition;
    the declared types are of Error severity, the others of Info. *)
Definition severity (cs : ConditionSet) (t : ConditionType) : ConditionSeverity :=
  if decide (t = happy cs \/ t ∈ dependents cs)
  then ConditionSeverityError else ConditionSeverityInfo.

(** Modelled from the spec: the manager's write of one condition, which is
    not part of the sources; [lastTransitionTime] is "updated only when
    status changes value (not when reason/message change while status is
    unchanged)". *)
Definition setCondition (now : Time) (cs : ConditionSet) (t : ConditionType)
    (st : ConditionStatus) (reason message : string)
    (conds : Conditions) : Conditions :=
  let stamp :=
    match conds !! t with
    | Some old => if decide (Status old = st) then LastTransitionTime old else now
    | None => now
    end in
  <[t := {| Type_ := t; Status := st; Severity := severity cs t;
            LastTransitionTime := stamp; Reason := reason;
            Message := message |}]> conds.

(** A dependent condition that is "absent or Unknown". *)
Definition unresolved (o : option Condition) : bool :=
  match o with
  | None => true
  | Some c => bool_decide (Status c = ConditionUnknown)
  end.

Definition failed (o : option Condition) : bool :=
  match o with
  | None => false
  | Some c => bool_decide (Status c = ConditionFalse)
  end.

(** Reason and message of a condition that may be absent: an absent
    condition has none to copy. *)
Definition reasonOf (o : option Condition) : string :=
  match o with Some c => Reason c | None => "" end.

Definition messageOf (o : option Condition) : string :=
  match o with Some c => Message c | None => "" end.

(** Modelled from the spec: the aggregate computation of the manager, which
    is not part of the sources.  "If any dependent condition is absent or
    Unknown, aggregate = Unknown, reason/message copied from the first such
    condition in declaration order.  Else if any dependent condition is
    False, aggregate = False, reason/message copied from the first False
    condition in declaration order.  Else aggregate = True, reason/message
    cleared." *)
Definition recomputeAggregate (now : Time) (cs : ConditionSet)
    (conds : Conditions) : Conditions :=
  match find (fun t => unresolved (conds !! t)) (dependents cs) with
  | Some t =>
      setCondition now cs (happy cs) ConditionUnknown
        (reasonOf (conds !! t)) (messageOf (conds !! t)) conds
  | None =>
      match find (fun t => failed (conds !! t)) (dependents cs) with
      | Some t =>
          setCondition now cs (happy cs) ConditionFalse
            (reasonOf (conds !! t)) (messageOf (conds !! t)) conds
      | None => setCondition now cs (happy cs) ConditionTrue "" "" conds
      end
  end.

(** Modelled from the spec: the manager's mark primitives, which are not
    part of the sources; each sets one condition and recomputes the
    aggregate. *)
Definition MarkTrue (now : Time) (cs : ConditionSet) (t : ConditionType)
    (conds : Conditions) : Conditions :=
  recomputeAggregate now cs (setCondition now cs t ConditionTrue "" "" conds).

Definition MarkTrueWithReason (now : Time) (cs : ConditionSet)
    (t : ConditionType) (reason messageFormat : string)
    (messageA : list string) (conds : Conditions) : Conditions :=
  recomputeAggregate now cs
    (setCondition now cs t ConditionTrue reason
       (fmt.Sprintf messageFormat messageA) conds).

Definition MarkFalse (now : Time) (cs : ConditionSet) (t : ConditionType)
    (reason messageFormat : string) (messageA : list string)
    (conds : Conditions) : Conditions :=
  recomputeAggregate now cs
    (setCondition now cs t ConditionFalse reason
       (fmt.Sprintf messageFormat messageA) conds).

Definition MarkUnknown (now : Time) (cs : ConditionSet) (t : ConditionType)
    (reason messageFormat : string) (messageA : list string)
    (conds : Conditions) : Conditions :=
  recomputeAggregate now cs
    (setCondition now cs t ConditionUnknown reason
       (fmt.Sprintf messageFormat messageA) conds).

(** Modelled from the spec: the manager's [GetCondition], "returns a copy
    (or nil if absent), read-only, no recomputation". *)
Definition GetCondition (t : ConditionType) (conds : Conditions)
    : option Condition :=
  conds !! t.

(** Modelled from the spec: the manager's [IsHappy], "true iff the
    aggregate Ready condition's status is True". *)
Definition IsHappy (cs : ConditionSet) (conds : Conditions) : bool :=
  match conds !! happy cs with
  | Some c => bool_decide (Status c = ConditionTrue)
  | None => false
  end.

(** Modelled from the spec: one step of the manager's
    [InitializeConditions]: a declared condition type "not yet present" is
    set "to Unknown with empty reason/message"; "no-op for already-present
    conditions". *)
Definition initializeCondition (now : Time) (cs : ConditionSet)
    (conds : Conditions) (t : ConditionType) : Conditions :=
  match conds !! t with
  | Some _ => conds
  | None => setCondition now cs t ConditionUnknown "" "" conds
  end.

(** Modelled from the spec: the manager's [InitializeConditions], over
    "every condition type declared in the ConditionSet": the aggregate and
    the dependents. *)
Definition InitializeConditions (now : Time) (cs : ConditionSet)
    (conds : Conditions) : Conditions :=
  fold_left (initializeCondition now cs) (happy cs :: dependents cs) conds.

End apis.

(** ** The Kubernetes and duck types the two packages read

    Their declarations are outside the sources; the records carry the
    fields that the embedded functions touch. *)

Module DeploymentCondition.
Record t : Type := { Type_ : string; Status : string }.
End DeploymentCondition.

Module DeploymentStatus.
Record t : Type := { Replicas : Z; Conditions : list DeploymentCondition.t }.
End DeploymentStatus.

Module Deployment.
Record t : Type := { Name : string; Status : DeploymentStatus.t }.
End Deployment.

Module appsv1.
(** The condition type [appsv1.DeploymentAvailable]. *)
Definition DeploymentAvailable : string := "Available".
End appsv1.

Module Addressable.
Record t `{apis.URLType} : Type := {
  Name : option string;
  URL : option apis.URL;
  CACerts : option string;
  Audience : option string
}.
End Addressable.

Module OwnerReference.
Record t : Type := { Kind : string; Name : string }.
End OwnerReference.

Module ConsumerGroup.
Record t : Type := {
  Namespace : string;
  Name : string;
  OwnerReferences : list OwnerReference.t
}.
Definition GetNamespace (cg : t) : string := Namespace cg.
End ConsumerGroup.

Module NamespacedName.
Record t : Type := { Namespace : string; Name : string }.
End NamespacedName.

(** A value of type [interface{}] as the router's closures see it: a
    [*ConsumerGroup] (possibly the nil pointer of that type), or a value of
    another dynamic type (the nil interface included). *)
Inductive Object : Type :=
| ConsumerGroupPtr (p : option ConsumerGroup.t)
| OtherValue (dynamicType : string).

(** ** Package [knative.dev/eventing/pkg/apis/duck] *)

Module duck.

(** Modelled from the spec: [duck.DeploymentIsAvailable], which is not part
    of the sources; "scan a list of status conditions for a type match,
    default to a caller-supplied boolean if not found", the match answering
    "is type X true". *)
Definition DeploymentIsAvailable (d : option DeploymentStatus.t) (def : bool)
    : Result bool :=
  ds ← deref d;
  mret match find (fun c => bool_decide (DeploymentCondition.Type_ c
                                          = appsv1.DeploymentAvailable))
                  (DeploymentStatus.Conditions ds) with
       | Some c => bool_decide (DeploymentCondition.Status c = "True")
       | None => def
       end.

End duck.

(** ** Package [v1]: [kafka_lifecycle.go] *)

Module v1.

Definition KafkaConditionReady : apis.ConditionType := apis.ConditionReady.
Definition KafkaConditionSinkProvided : apis.ConditionType := "SinkProvided".
Definition KafkaConditionDeployed : apis.ConditionType := "Deployed".
Definition KafkaConditionKeyType : apis.ConditionType := "KeyTypeCorrect".
Definition KafkaConditionConnectionEstablished : apis.ConditionType :=
  "ConnectionEstablished".
Definition KafkaConditionInitialOffsetsCommitted : apis.ConditionType :=
  "InitialOffsetsCommitted".
Definition KafkaConditionOIDCIdentityCreated : apis.ConditionType :=
  "OIDCIdentityCreated".

(** The declared value of the package variable. *)
Definition KafkaSourceCondSet : apis.ConditionSet :=
  apis.NewLivingConditionSet
    [ KafkaConditionSinkProvided;
      KafkaConditionDeployed;
      KafkaConditionConnectionEstablished;
      KafkaConditionInitialOffsetsCommitted;
      KafkaConditionOIDCIdentityCreated ].

(** [RegisterAlternateKafkaConditionSet]: the new value of the package
    variable, whatever the old one. *)
Definition RegisterAlternateKafkaConditionSet
    (conditionSet : apis.ConditionSet) (_ : apis.ConditionSet)
    : apis.ConditionSet :=
  conditionSet.

(** [GetConditionSet]: the current value of the package variable. *)
Definition GetConditionSet (cs : apis.ConditionSet) : apis.ConditionSet := cs.

(** The fields of [KafkaSourceStatus] that the lifecycle file reads or
    writes. *)
Record KafkaSourceStatus `{apis.URLType} : Type := {
  Conditions : apis.Conditions;
  SinkURI : option apis.URL;
  SinkCACerts : option string;
  SinkAudience : option string;
  Consumers : Z;
  Claims : string
}.

Section Lifecycle.
Context `{apis.URLType}.

(** [cs.Manage(s)] hands the manager the conditions of [s], and nothing
    else of it. *)
Definition Manage (f : apis.Conditions -> apis.Conditions)
    (s : KafkaSourceStatus) : KafkaSourceStatus :=
  {| Conditions := f (Conditions s);
     SinkURI := SinkURI s;
     SinkCACerts := SinkCACerts s;
     SinkAudience := SinkAudience s;
     Consumers := Consumers s;
     Claims := Claims s |}.

Definition setSink (uri : option apis.URL) (cacerts audience : option string)
    (s : KafkaSourceStatus) : KafkaSourceStatus :=
  {| Conditions := Conditions s;
     SinkURI := uri;
     SinkCACerts := cacerts;
     SinkAudience := audience;
     Consumers := Consumers s;
     Claims := Claims s |}.

Definition setConsumers (n : Z) (s : KafkaSourceStatus) : KafkaSourceStatus :=
  {| Conditions := Conditions s;
     SinkURI := SinkURI s;
     SinkCACerts := SinkCACerts s;
     SinkAudience := SinkAudience s;
     Consumers := n;
     Claims := Claims s |}.

Definition GetCondition (t : apis.ConditionType) (s : KafkaSourceStatus)
    : option apis.Condition :=
  apis.GetCondition t (Conditions s).

Definition IsReady (cs : apis.ConditionSet) (s : KafkaSourceStatus) : bool :=
  apis.IsHappy cs (Conditions s).

Definition InitializeConditions (now : apis.Time) (cs : apis.ConditionSet)
    (s : KafkaSourceStatus) : KafkaSourceStatus :=
  Manage (apis.InitializeConditions now cs) s.

(** [addr.URL != nil && !addr.URL.IsEmpty()] *)
Definition urlPresent (a : Addressable.t) : bool :=
  match Addressable.URL a with
  | Some u => negb (apis.IsEmpty u)
  | None => false
  end.

Definition MarkSink (now : apis.Time) (cs : apis.ConditionSet)
    (addr : option Addressable.t) (s : KafkaSourceStatus)
    : Result KafkaSourceStatus :=
  a ← deref addr;
  if urlPresent a then
    let s := setSink (Addressable.URL a) (Addressable.CACerts a)
               (Addressable.Audience a) s in
    mret (Manage (apis.MarkTrue now cs KafkaConditionSinkProvided) s)
  else
    mret (Manage (apis.MarkUnknown now cs KafkaConditionSinkProvided
                    "SinkEmpty" "Sink has resolved to empty.%s" [""]) s).

Definition MarkNoSink (now : apis.Time) (cs : apis.ConditionSet)
    (reason messageFormat : string) (messageA : list string)
    (s : KafkaSourceStatus) : KafkaSourceStatus :=
  Manage (apis.MarkFalse now cs KafkaConditionSinkProvided
            reason messageFormat messageA) s.

Fixpoint DeploymentIsAvailable_scan (conds : list DeploymentCondition.t)
    (def : bool) : bool :=
  match conds with
  | [] => def
  | cond :: rest =>
      if decide (DeploymentCondition.Type_ cond = appsv1.DeploymentAvailable)
      then bool_decide (DeploymentCondition.Status cond = "True")
      else DeploymentIsAvailable_scan rest def
  end.

Definition DeploymentIsAvailable (d : option DeploymentStatus.t) (def : bool)
    : Result bool :=
  ds ← deref d;
  mret (DeploymentIsAvailable_scan (DeploymentStatus.Conditions ds) def).

Definition MarkDeployed (now : apis.Time) (cs : apis.ConditionSet)
    (d : option Deployment.t) (s : KafkaSourceStatus)
    : Result KafkaSourceStatus :=
  dv ← deref d;
  available ← duck.DeploymentIsAvailable (Some (Deployment.Status dv)) false;
  if available : bool then
    let s := Manage (apis.MarkTrue now cs KafkaConditionDeployed) s in
    mret (setConsumers (DeploymentStatus.Replicas (Deployment.Status dv)) s)
  else
    mret (Manage (apis.MarkFalse now cs KafkaConditionDeployed
                    "DeploymentUnavailable"
                    "The Deployment '%s' is unavailable."
                    [Deployment.Name dv]) s).

Definition MarkDeploying (now : apis.Time) (cs : apis.ConditionSet)
    (reason messageFormat : string) (messageA : list string)
    (s : KafkaSourceStatus) : KafkaSourceStatus :=
  Manage (apis.MarkUnknown now cs KafkaConditionDeployed
            reason messageFormat messageA) s.

Definition MarkNotDeployed (now : apis.Time) (cs : apis.ConditionSet)
    (reason messageFormat : string) (messageA : list string)
    (s : KafkaSourceStatus) : KafkaSourceStatus :=
  Manage (apis.MarkFalse now cs KafkaConditionDeployed
            reason messageFormat messageA) s.

Definition MarkKeyTypeCorrect (now : apis.Time) (cs : apis.ConditionSet)
    (s : KafkaSourceStatus) : KafkaSourceStatus :=
  Manage (apis.MarkTrue now cs KafkaConditionKeyType) s.

Definition MarkKeyTypeIncorrect (now : apis.Time) (cs : apis.ConditionSet)
    (reason messageFormat : string) (messageA : list string)
    (s : KafkaSourceStatus) : KafkaSourceStatus :=
  Manage (apis.MarkFalse now cs KafkaConditionKeyType
            reason messageFormat messageA) s.

Definition MarkConnectionEstablished (now : apis.Time)
    (cs : apis.ConditionSet) (s : KafkaSourceStatus) : KafkaSourceStatus :=
  Manage (apis.MarkTrue now cs KafkaConditionConnectionEstablished) s.

Definition MarkConnectionNotEstablished (now : apis.Time)
    (cs : apis.ConditionSet) (reason messageFormat : string)
    (messageA : list string) (s : KafkaSourceStatus) : KafkaSourceStatus :=
  Manage (apis.MarkFalse now cs KafkaConditionConnectionEstablished
            reason messageFormat messageA) s.

Definition MarkInitialOffsetCommitted (now : apis.Time)
    (cs : apis.ConditionSet) (s : KafkaSourceStatus) : KafkaSourceStatus :=
  Manage (apis.MarkTrue now cs KafkaConditionInitialOffsetsCommitted) s.

Definition MarkInitialOffsetNotCommitted (now : apis.Time)
    (cs : apis.ConditionSet) (reason messageFormat : string)
    (messageA : list string) (s : KafkaSourceStatus) : KafkaSourceStatus :=
  Manage (apis.MarkFalse now cs KafkaConditionInitialOffsetsCommitted
            reason messageFormat messageA) s.

Definition MarkOIDCIdentityCreatedSucceeded (now : apis.Time)
    (cs : apis.ConditionSet) (s : KafkaSourceStatus) : KafkaSourceStatus :=
  Manage (apis.MarkTrue now cs KafkaConditionOIDCIdentityCreated) s.

Definition MarkOIDCIdentityCreatedSucceededWithReason (now : apis.Time)
    (cs : apis.ConditionSet) (reason messageFormat : string)
    (messageA : list string) (s : KafkaSourceStatus) : KafkaSourceStatus :=
  Manage (apis.MarkTrueWithReason now cs KafkaConditionOIDCIdentityCreated
            reason messageFormat messageA) s.

Definition MarkOIDCIdentityCreatedFailed (now : apis.Time)
    (cs : apis.ConditionSet) (reason messageFormat : string)
    (messageA : list string) (s : KafkaSourceStatus) : KafkaSourceStatus :=
  Manage (apis.MarkFalse now cs KafkaConditionOIDCIdentityCreated
            reason messageFormat messageA) s.

Definition MarkOIDCIdentityCreatedUnknown (now : apis.Time)
    (cs : apis.ConditionSet) (reason messageFormat : string)
    (messageA : list string) (s : KafkaSourceStatus) : KafkaSourceStatus :=
  Manage (apis.MarkUnknown now cs KafkaConditionOIDCIdentityCreated
            reason messageFormat messageA) s.

Definition UpdateConsumerGroupStatus (status : string)
    (s : KafkaSourceStatus) : KafkaSourceStatus :=
  {| Conditions := Conditions s;
     SinkURI := SinkURI s;
     SinkCACerts := SinkCACerts s;
     SinkAudience := SinkAudience s;
     Consumers := Consumers s;
     Claims := status |}.

(** The mark operations of the file, as calls with their arguments. *)
Inductive MarkCall : Type :=
| CallMarkSink (addr : option Addressable.t)
| CallMarkNoSink (reason messageFormat : string) (messageA : list string)
| CallMarkDeployed (d : option Deployment.t)
| CallMarkDeploying (reason messageFormat : string) (messageA : list string)
| CallMarkNotDeployed (reason messageFormat : string) (messageA : list string)
| CallMarkKeyTypeCorrect
| CallMarkKeyTypeIncorrect (reason messageFormat : string)
    (messageA : list string)
| CallMarkConnectionEstablished
| CallMarkConnectionNotEstablished (reason messageFormat : string)
    (messageA : list string)
| CallMarkInitialOffsetCommitted
| CallMarkInitialOffsetNotCommitted (reason messageFormat : string)
    (messageA : list string)
| CallMarkOIDCIdentityCreatedSucceeded
| CallMarkOIDCIdentityCreatedSucceededWithReason (reason messageFormat : string)
    (messageA : list string)
| CallMarkOIDCIdentityCreatedFailed (reason messageFormat : string)
    (messageA : list string)
| CallMarkOIDCIdentityCreatedUnknown (reason messageFormat : string)
    (messageA : list string).

Definition mark (now : apis.Time) (cs : apis.ConditionSet) (c : MarkCall)
    (s : KafkaSourceStatus) : Result KafkaSourceStatus :=
  match c with
  | CallMarkSink addr => MarkSink now cs addr s
  | CallMarkNoSink r f a => mret (MarkNoSink now cs r f a s)
  | CallMarkDeployed d => MarkDeployed now cs d s
  | CallMarkDeploying r f a => mret (MarkDeploying now cs r f a s)
  | CallMarkNotDeployed r f a => mret (MarkNotDeployed now cs r f a s)
  | CallMarkKeyTypeCorrect => mret (MarkKeyTypeCorrect now cs s)
  | CallMarkKeyTypeIncorrect r f a => mret (MarkKeyTypeIncorrect now cs r f a s)
  | CallMarkConnectionEstablished => mret (MarkConnectionEstablished now cs s)
  | CallMarkConnectionNotEstablished r f a =>
      mret (MarkConnectionNotEstablished now cs r f a s)
  | CallMarkInitialOffsetCommitted => mret (MarkInitialOffsetCommitted now cs s)
  | CallMarkInitialOffsetNotCommitted r f a =>
      mret (MarkInitialOffsetNotCommitted now cs r f a s)
  | CallMarkOIDCIdentityCreatedSucceeded =>
      mret (MarkOIDCIdentityCreatedSucceeded now cs s)
  | CallMarkOIDCIdentityCreatedSucceededWithReason r f a =>
      mret (MarkOIDCIdentityCreatedSucceededWithReason now cs r f a s)
  | CallMarkOIDCIdentityCreatedFailed r f a =>
      mret (MarkOIDCIdentityCreatedFailed now cs r f a s)
  | CallMarkOIDCIdentityCreatedUnknown r f a =>
      mret (MarkOIDCIdentityCreatedUnknown now cs r f a s)
  end.

End Lifecycle.

End v1.

(** ** Package [consumergroup]: [Filter] and [Enqueue] *)

Module consumergroup.

Section Router.
Context `{strings.Folding}.

(** The range loop of [Filter]'s closure. *)
Fixpoint Filter_scan (userFacingResource : string)
    (refs : list OwnerReference.t) : bool :=
  match refs with
  | [] => false
  | or :: rest =>
      if decide (strings.ToLower (OwnerReference.Kind or) = userFacingResource)
      then true
      else Filter_scan userFacingResource rest
  end.

Definition Filter (userFacingResource : string) : Object -> Result bool :=
  let userFacingResource := strings.ToLower userFacingResource in
  fun obj =>
    match obj with
    | ConsumerGroupPtr p =>
        cg ← deref p;
        mret (Filter_scan userFacingResource (ConsumerGroup.OwnerReferences cg))
    | OtherValue _ => mret false
    end.

(** The range loop of [Enqueue]'s closure.  The callback [enqueue] acts on
    the state [Q] of whoever owns the work queue; [q] is that state as the
    loop advances. *)
Fixpoint Enqueue_scan {Q : Type} (userFacingResource : string)
    (enqueue : NamespacedName.t -> Q -> Q) (cg : ConsumerGroup.t)
    (refs : list OwnerReference.t) (q : Q) : Q :=
  match refs with
  | [] => q
  | or :: rest =>
      if decide (strings.ToLower (OwnerReference.Kind or) = userFacingResource)
      then
        Enqueue_scan userFacingResource enqueue cg rest
          (enqueue {| NamespacedName.Namespace := ConsumerGroup.GetNamespace cg;
                      NamespacedName.Name := OwnerReference.Name or |} q)
      else Enqueue_scan userFacingResource enqueue cg rest q
  end.

Definition Enqueue {Q : Type} (userFacingResource : string)
    (enqueue : NamespacedName.t -> Q -> Q) : Object -> Q -> Result Q :=
  let userFacingResource := strings.ToLower userFacingResource in
  fun obj q =>
    match obj with
    | ConsumerGroupPtr p =>
        cg ← deref p;
        mret (Enqueue_scan userFacingResource enqueue cg
                (ConsumerGroup.OwnerReferences cg) q)
    | OtherValue _ => mret q
    end.

(** The callback as the Go value it is: a func that may be nil, and that
    may itself panic when called.  Calling a nil func panics. *)
Definition invoke {Q : Type}
    (enqueue : option (NamespacedName.t -> Q -> Result Q))
    (key : NamespacedName.t) (q : Q) : Result Q :=
  match enqueue with
  | Some f => f key q
  | None => Panics NilPointerDereference
  end.

(** The range loop of [Enqueue]'s closure for such a callback: the loop
    ends at the first call that panics. *)
Fixpoint EnqueueFunc_scan {Q : Type} (userFacingResource : string)
    (enqueue : option (NamespacedName.t -> Q -> Result Q))
    (cg : ConsumerGroup.t) (refs : list OwnerReference.t) (q : Q)
    : Result Q :=
  match refs with
  | [] => mret q
  | or :: rest =>
      if decide (strings.ToLower (OwnerReference.Kind or) = userFacingResource)
      then
        q' ← invoke enqueue
               {| NamespacedName.Namespace := ConsumerGroup.GetNamespace cg;
                  NamespacedName.Name := OwnerReference.Name or |} q;
        EnqueueFunc_scan userFacingResource enqueue cg rest q'
      else EnqueueFunc_scan userFacingResource enqueue cg rest q
  end.

(** [Enqueue] for a callback that may be nil or panic; [Enqueue] above is
    its restriction to callbacks that always return. *)
Definition EnqueueFunc {Q : Type} (userFacingResource : string)
    (enqueue : option (NamespacedName.t -> Q -> Result Q))
    : Object -> Q -> Result Q :=
  let userFacingResource := strings.ToLower userFacingResource in
  fun obj q =>
    match obj with
    | ConsumerGroupPtr p =>
        cg ← deref p;
        EnqueueFunc_scan userFacingResource enqueue cg
          (ConsumerGroup.OwnerReferences cg) q
    | OtherValue _ => mret q
    end.

End Router.

(** A work queue that records the keys it is handed, oldest first. *)
Definition record (key : NamespacedName.t) (q : list NamespacedName.t)
    : list NamespacedName.t :=
  (q ++ [key])%list.

End consumergroup.

(** ** Vocabulary of the properties *)

(** Case-insensitive equality of kinds, "by lowercasing both sides". *)
Definition kindMatches `{strings.Folding} (k : string)
    (or : OwnerReference.t) : Prop :=
  strings.ToLower (OwnerReference.Kind or) = strings.ToLower k.

#[global] Instance kindMatches_dec `{strings.Folding} k or :
  Decision (kindMatches k or).
Proof. unfold kindMatches. apply _. Defined.

(** The routing key of an owner reference of the subordinate [cg]. *)
Definition routingKey (cg : ConsumerGroup.t) (or : OwnerReference.t)
    : NamespacedName.t :=
  {| NamespacedName.Namespace := ConsumerGroup.Namespace cg;
     NamespacedName.Name := OwnerReference.Name or |}.

(** One string occurs inside another. *)
Definition contains (s part : string) : Prop :=
  exists before after : string, s = before +:+ part +:+ after.

(** The status of a condition that may be absent. *)
Definition statusOf (o : option apis.Condition) : option apis.ConditionStatus :=
  apis.Status <$> o.

(** The dependents declared before [t] are all resolved, and [t] is not:
    [t] is the first dependent, in declaration order, that is "absent or
    Unknown". *)
Definition firstUnresolved (cs : apis.ConditionSet)
    (conds : apis.Conditions) (t : apis.ConditionType) : Prop :=
  exists before after : list apis.ConditionType,
    apis.dependents cs = (before ++ t :: after)%list /\
    (forall u, u ∈ before -> apis.unresolved (conds !! u) = false) /\
    apis.unresolved (conds !! t) = true.

(** The first condition of type [DeploymentAvailable], if any. *)
Definition firstAvailable (conds : list DeploymentCondition.t)
    : option DeploymentCondition.t :=
  find (fun c => bool_decide (DeploymentCondition.Type_ c
                               = appsv1.DeploymentAvailable)) conds.

(** The condition [InitializeConditions] writes for a declared type that
    is absent. *)
Definition initialCondition (now : apis.Time) (cs : apis.ConditionSet)
    (t : apis.ConditionType) : apis.Condition :=
  {| apis.Type_ := t;
     apis.Status := apis.ConditionUnknown;
     apis.Severity := apis.severity cs t;
     apis.LastTransitionTime := now;
     apis.Reason := "";
     apis.Message := "" |}.

(** A call returns normally. *)
Definition returns {A : Type} (r : Result A) : Prop :=
  exists a, r = Returns a.

(** The pointer argument of a mark call, if it has one, is not nil. *)
Definition argumentAllocated `{apis.URLType} (call : v1.MarkCall) : Prop :=
  match call with
  | v1.CallMarkSink addr => addr <> None
  | v1.CallMarkDeployed d => d <> None
  | _ => True
  end.

(** ** Fixtures for the examples *)

(** URLs given by their text; the empty URL is the empty text. *)
Definition textURL : apis.URLType :=
  {| apis.URL := string; apis.IsEmpty := fun u => bool_decide (u = "") |}.

Definition urlOf (text : string) : @apis.URL textURL := text.

Definition emptyStatus `{apis.URLType} : v1.KafkaSourceStatus :=
  {| v1.Conditions := ∅;
     v1.SinkURI := None;
     v1.SinkCACerts := None;
     v1.SinkAudience := None;
     v1.Consumers := 0;
     v1.Claims := "" |}.

Definition availableDeployment : Deployment.t :=
  {| Deployment.Name := "adapter";
     Deployment.Status :=
       {| DeploymentStatus.Replicas := 3;
          DeploymentStatus.Conditions :=
            [ {| DeploymentCondition.Type_ := "Progressing";
                 DeploymentCondition.Status := "True" |};
              {| DeploymentCondition.Type_ := "Available";
                 DeploymentCondition.Status := "True" |} ] |} |}.

(** A status whose sink fields hold an earlier resolution. *)
Definition resolvedStatus : v1.KafkaSourceStatus (H := textURL) :=
  {| v1.Conditions := ∅;
     v1.SinkURI := Some (urlOf "http://sink.example");
     v1.SinkCACerts := Some "ca-bundle";
     v1.SinkAudience := Some "audience";
     v1.Consumers := 2;
     v1.Claims := "" |}.

(** An address resolved to an empty URL. *)
Definition emptyAddress : Addressable.t (H := textURL) :=
  {| Addressable.Name := None;
     Addressable.URL := Some (urlOf "");
     Addressable.CACerts := None;
     Addressable.Audience := None |}.

(** A resolved address. *)
Definition validAddress : Addressable.t (H := textURL) :=
  {| Addressable.Name := None;
     Addressable.URL := Some (urlOf "http://sink.example");
     Addressable.CACerts := Some "ca-bundle";
     Addressable.Audience := None |}.

(** A ConsumerGroup in namespace "ns" owned by the given (kind, name)
    pairs. *)
Definition ownedBy (owners : list (string * string)) : ConsumerGroup.t :=
  {| ConsumerGroup.Namespace := "ns";
     ConsumerGroup.Name := "group";
     ConsumerGroup.OwnerReferences :=
       map (fun o => {| OwnerReference.Kind := fst o;
                        OwnerReference.Name := snd o |}) owners |}.

(** The end-to-end scenario: initialize, then mark the five dependents,
    the connection by [connection]. *)
Definition reconcile
    (connection : v1.KafkaSourceStatus (H := textURL) ->
                  v1.KafkaSourceStatus (H := textURL))
    : Result (v1.KafkaSourceStatus (H := textURL)) :=
  let cs := v1.KafkaSourceCondSet in
  let s := v1.InitializeConditions 1%Z cs emptyStatus in
  s ← v1.MarkSink 2%Z cs (Some validAddress) s;
  s ← v1.MarkDeployed 3%Z cs (Some availableDeployment) s;
  let s := connection s in
  let s := v1.MarkInitialOffsetCommitted 5%Z cs s in
  mret (v1.MarkOIDCIdentityCreatedSucceeded 6%Z cs s).

(** ** Vocabulary of the further properties *)

(** The condition type that a mark call names. *)
Definition markedCondition `{apis.URLType} (call : v1.MarkCall)
    : apis.ConditionType :=
  match call with
  | v1.CallMarkSink _ | v1.CallMarkNoSink _ _ _ =>
      v1.KafkaConditionSinkProvided
  | v1.CallMarkDeployed _ | v1.CallMarkDeploying _ _ _
  | v1.CallMarkNotDeployed _ _ _ =>
      v1.KafkaConditionDeployed
  | v1.CallMarkKeyTypeCorrect | v1.CallMarkKeyTypeIncorrect _ _ _ =>
      v1.KafkaConditionKeyType
  | v1.CallMarkConnectionEstablished
  | v1.CallMarkConnectionNotEstablished _ _ _ =>
      v1.KafkaConditionConnectionEstablished
  | v1.CallMarkInitialOffsetCommitted
  | v1.CallMarkInitialOffsetNotCommitted _ _ _ =>
      v1.KafkaConditionInitialOffsetsCommitted
  | v1.CallMarkOIDCIdentityCreatedSucceeded
  | v1.CallMarkOIDCIdentityCreatedSucceededWithReason _ _ _
  | v1.CallMarkOIDCIdentityCreatedFailed _ _ _
  | v1.CallMarkOIDCIdentityCreatedUnknown _ _ _ =>
      v1.KafkaConditionOIDCIdentityCreated
  end.

(** The call is a [MarkSink] that takes its first branch. *)
Definition writesSink `{apis.URLType} (call : v1.MarkCall) : bool :=
  match call with
  | v1.CallMarkSink (Some a) => v1.urlPresent a
  | _ => false
  end.

(** The call is a [MarkDeployed] that takes its first branch. *)
Definition writesConsumers `{apis.URLType} (call : v1.MarkCall) : bool :=
  match call with
  | v1.CallMarkDeployed (Some d) =>
      v1.DeploymentIsAvailable_scan
        (DeploymentStatus.Conditions (Deployment.Status d)) false
  | _ => false
  end.

(** The status holds condition [t] with the given status, reason and
    message. *)
Definition recordedAs `{apis.URLType} (s : v1.KafkaSourceStatus)
    (t : apis.ConditionType) (st : apis.ConditionStatus)
    (reason message : string) : Prop :=
  exists c,
    v1.GetCondition t s = Some c /\
    apis.Status c = st /\ apis.Reason c = reason /\ apis.Message c = message.

(** The condition has type [DeploymentAvailable]. *)
Definition isAvailableType (c : DeploymentCondition.t) : Prop :=
  DeploymentCondition.Type_ c = appsv1.DeploymentAvailable.

#[global] Instance isAvailableType_dec c : Decision (isAvailableType c).
Proof. unfold isAvailableType. apply _. Defined.

(** The same ConsumerGroup with another list of owner references. *)
Definition withOwners (cg : ConsumerGroup.t) (refs : list OwnerReference.t)
    : ConsumerGroup.t :=
  {| ConsumerGroup.Namespace := ConsumerGroup.Namespace cg;
     ConsumerGroup.Name := ConsumerGroup.Name cg;
     ConsumerGroup.OwnerReferences := refs |}.

(** The callback returns on each of the keys, handed over in order, the
    queue state passing from one call to the next. *)
Fixpoint callsReturn {Q : Type}
    (enqueue : option (NamespacedName.t -> Q -> Result Q))
    (keys : list NamespacedName.t) (q : Q) : Prop :=
  match keys with
  | [] => True
  | key :: rest =>
      exists q', consumergroup.invoke enqueue key q = Returns q' /\
                 callsReturn enqueue rest q'
  end.

(** The operations of the core, as calls on an allocated status. *)
Inductive CoreCall `{apis.URLType} (Q : Type) : Type :=
| DoMark (call : v1.MarkCall)
| DoInitializeConditions
| DoGetCondition (t : apis.ConditionType)
| DoIsReady
| DoFilter (k : string) (obj : Object)
| DoEnqueue (k : string)
    (enqueue : option (NamespacedName.t -> Q -> Result Q))
    (obj : Object) (q : Q).

Arguments DoMark {_ Q} call.
Arguments DoInitializeConditions {_ Q}.
Arguments DoGetCondition {_ Q} t.
Arguments DoIsReady {_ Q}.
Arguments DoFilter {_ Q} k obj.
Arguments DoEnqueue {_ Q} k enqueue obj q.

(** What a call of the core hands back. *)
Inductive CoreResult `{apis.URLType} (Q : Type) : Type :=
| GotStatus (s : v1.KafkaSourceStatus)
| GotCondition (c : option apis.Condition)
| GotBool (b : bool)
| GotQueue (q : Q).

Arguments GotStatus {_ Q} s.
Arguments GotCondition {_ Q} c.
Arguments GotBool {_ Q} b.
Arguments GotQueue {_ Q} q.

Definition runCore `{apis.URLType} `{strings.Folding} {Q : Type}
    (now : apis.Time) (cs : apis.ConditionSet) (s : v1.KafkaSourceStatus)
    (c : CoreCall Q) : Result (CoreResult Q) :=
  match c with
  | DoMark call => s' ← v1.mark now cs call s; mret (GotStatus s')
  | DoInitializeConditions =>
      mret (GotStatus (v1.InitializeConditions now cs s))
  | DoGetCondition t => mret (GotCondition (v1.GetCondition t s))
  | DoIsReady => mret (GotBool (v1.IsReady cs s))
  | DoFilter k obj => b ← consumergroup.Filter k obj; mret (GotBool b)
  | DoEnqueue k enqueue obj q =>
      q' ← consumergroup.EnqueueFunc k enqueue obj q; mret (GotQueue q')
  end.

(** The inputs on which a call of the core has no nil pointer to
    dereference and no callback that fails: the pointer argument of
    [MarkSink] and [MarkDeployed] is not nil; the object handed to the
    router is not a nil [*ConsumerGroup]; and the callback of [Enqueue]
    returns on each key of a matching owner reference (a nil callback does
    so only when no reference matches). *)
Definition wellFormed `{apis.URLType} `{strings.Folding} {Q : Type}
    (c : CoreCall Q) : Prop :=
  match c with
  | DoMark call => argumentAllocated call
  | DoInitializeConditions | DoGetCondition _ | DoIsReady => True
  | DoFilter _ obj => obj <> ConsumerGroupPtr None
  | DoEnqueue k enqueue obj q =>
      match obj with
      | ConsumerGroupPtr None => False
      | ConsumerGroupPtr (Some cg) =>
          callsReturn enqueue
            (map (routingKey cg)
               (filter (kindMatches k) (ConsumerGroup.OwnerReferences cg))) q
      | OtherValue _ => True
      end
  end.

(** Every [%] of the format starts one of [%%], [%s], [%v]: the formats
    that [fmt.Sprintf] above renders as Go does on string operands. *)
Fixpoint plainVerbs (format : string) : bool :=
  match format with
  | EmptyString => true
  | String c rest =>
      if decide (c = "%"%char) then
        match rest with
        | EmptyString => false
        | String v rest' =>
            bool_decide (v = "%"%char \/ v = "s"%char \/ v = "v"%char)
            && plainVerbs rest'
        end
      else plainVerbs rest
  end.

(** The callback that records each key. *)
Definition recording : option (NamespacedName.t -> list NamespacedName.t ->
                               Result (list NamespacedName.t)) :=
  Some (fun key q => Returns (consumergroup.record key q)).

(** A deployment whose Available condition is not "True". *)
Definition unavailableDeployment : Deployment.t :=
  {| Deployment.Name := "adapter";
     Deployment.Status :=
       {| DeploymentStatus.Replicas := 0;
          DeploymentStatus.Conditions :=
            [ {| DeploymentCondition.Type_ := "Available";
                 DeploymentCondition.Status := "False" |} ] |} |}.

(** A call that returned [s']: replace [s'] by the returned value. *)
Ltac returned H :=
  unfold mret, Result_ret in H; injection H as <-; simpl.

(** Unfold the two wrappers that dereference their argument. *)
Ltac unfold_call H :=
  unfold v1.MarkSink, v1.MarkDeployed, duck.DeploymentIsAvailable in H;
  cbn [mbind Result_bind deref mret Result_ret] in H.

(** * Properties *)

(** ** Formatting and list search *)

Example Sprintf_sink_empty :
  fmt.Sprintf "Sink has resolved to empty.%s" [""] = "Sink has resolved to empty.".
Proof. reflexivity. Qed.

Example Sprintf_deployment :
  fmt.Sprintf "The Deployment '%s' is unavailable." ["adapter"]
  = "The Deployment 'adapter' is unavailable.".
Proof. reflexivity. Qed.

Lemma find_first_split {A : Type} (f : A -> bool) (l : list A) (x : A) :
  find f l = Some x <->
  exists before after,
    l = (before ++ x :: after)%list /\
    (forall y, y ∈ before -> f y = false) /\
    f x = true.
Proof.
  split.
  - revert x. induction l as [|a l IH]; simpl; intros x Hf; [discriminate|].
    destruct (f a) eqn:Hfa.
    + injection Hf as <-. exists [], l. repeat split; [|exact Hfa].
      intros y Hy. inversion Hy.
    + destruct (IH x Hf) as (before & after & -> & Hb & Hx).
      exists (a :: before), after. repeat split; [|exact Hx].
      intros y Hy. apply elem_of_cons in Hy as [->|Hy]; [exact Hfa|].
      apply Hb, Hy.
  - intros (before & after & -> & Hb & Hx).
    induction before as [|a before IH]; simpl.
    + rewrite Hx. reflexivity.
    + rewrite (Hb a) by left. apply IH. intros y Hy. apply Hb. right. exact Hy.
Qed.


(** ** The availability predicate *)

Lemma DeploymentIsAvailable_scan_first conds def :
  v1.DeploymentIsAvailable_scan conds def
  = match firstAvailable conds with
    | Some c => bool_decide (DeploymentCondition.Status c = "True")
    | None => def
    end.
Proof.
  unfold firstAvailable.
  induction conds as [|c rest IH]; simpl; [reflexivity|].
  destruct (decide (DeploymentCondition.Type_ c = appsv1.DeploymentAvailable))
    as [Heq|Hne].
  - rewrite (bool_decide_eq_true_2 _ Heq). reflexivity.
  - rewrite (bool_decide_eq_false_2 _ Hne). exact IH.
Qed.

Lemma firstAvailable_None conds :
  firstAvailable conds = None <->
  forall c, c ∈ conds ->
    DeploymentCondition.Type_ c <> appsv1.DeploymentAvailable.
Proof.
  unfold firstAvailable. split.
  - intros Hnone c Hin Heq.
    apply list_elem_of_In in Hin.
    pose proof (find_none _ _ Hnone c Hin) as Hf. simpl in Hf.
    apply bool_decide_eq_false in Hf. contradiction.
  - intros Hall. induction conds as [|c rest IH]; simpl; [reflexivity|].
    rewrite bool_decide_eq_false_2 by (apply Hall; left).
    apply IH. intros c' Hin. apply Hall. right. exact Hin.
Qed.

Lemma firstAvailable_Some conds c :
  firstAvailable conds = Some c <->
  exists before after,
    conds = (before ++ c :: after)%list /\
    (forall x, x ∈ before ->
      DeploymentCondition.Type_ x <> appsv1.DeploymentAvailable) /\
    DeploymentCondition.Type_ c = appsv1.DeploymentAvailable.
Proof.
  unfold firstAvailable. rewrite find_first_split.
  split; intros (before & after & Hsplit & Hbefore & Hc);
    exists before, after; (split; [exact Hsplit|]); split.
  - intros x Hx. exact (proj1 (bool_decide_eq_false _) (Hbefore x Hx)).
  - exact (proj1 (bool_decide_eq_true _) Hc).
  - intros x Hx. exact (proj2 (bool_decide_eq_false _) (Hbefore x Hx)).
  - exact (proj2 (bool_decide_eq_true _) Hc).
Qed.

(** The copy in [knative.dev/eventing] that [MarkDeployed] calls and the
    package's own [DeploymentIsAvailable] agree. *)
Lemma duck_DeploymentIsAvailable_agrees d def :
  duck.DeploymentIsAvailable d def = v1.DeploymentIsAvailable d def.
Proof.
  destruct d as [ds|]; [|reflexivity].
  unfold duck.DeploymentIsAvailable, v1.DeploymentIsAvailable. simpl.
  rewrite DeploymentIsAvailable_scan_first. reflexivity.
Qed.

(** C6, as the code has it: [DeploymentIsAvailable(d, def)] returns [def]
    when no condition of [d] has type [DeploymentAvailable], and otherwise
    returns whether the first condition of that type has status ["True"]
    (which may happen to equal [def]); [firstAvailable] is that first
    condition, see [firstAvailable_None] and [firstAvailable_Some]. *)
Theorem DeploymentIsAvailable_first_or_default
    (d : DeploymentStatus.t) (def : bool) :
  v1.DeploymentIsAvailable (Some d) def
  = Returns match firstAvailable (DeploymentStatus.Conditions d) with
            | Some c => bool_decide (DeploymentCondition.Status c = "True")
            | None => def
            end.
Proof.
  unfold v1.DeploymentIsAvailable. simpl.
  rewrite DeploymentIsAvailable_scan_first. reflexivity.
Qed.

(** C6 as stated fails in its "only if": with a condition of type
    [DeploymentAvailable] whose status is ["True"] and the default [true],
    the call returns [true], the default, although such a condition is
    there. *)
Lemma DeploymentIsAvailable_default_with_condition :
  let d := Deployment.Status availableDeployment in
  ~ (v1.DeploymentIsAvailable (Some d) true = Returns true <->
     forall c, c ∈ DeploymentStatus.Conditions d ->
       DeploymentCondition.Type_ c <> appsv1.DeploymentAvailable).
Proof.
  intros d [Hnone _].
  apply (Hnone eq_refl
           {| DeploymentCondition.Type_ := "Available";
              DeploymentCondition.Status := "True" |}).
  - simpl. right. left.
  - reflexivity.
Qed.

(** ** The ownership filter and router *)

Section RouterProperties.
Context `{strings.Folding}.

Lemma Filter_scan_true (k : string) (refs : list OwnerReference.t) :
  consumergroup.Filter_scan (strings.ToLower k) refs = true <->
  exists or, or ∈ refs /\ kindMatches k or.
Proof.
  induction refs as [|r rest IH]; simpl.
  - split; [discriminate|]. intros (or & Hin & _). inversion Hin.
  - destruct (decide (strings.ToLower (OwnerReference.Kind r)
                      = strings.ToLower k)) as [Heq|Hne].
    + split; [|reflexivity]. intros _. exists r. split; [left|exact Heq].
    + rewrite IH. split.
      * intros (or & Hin & Hm). exists or. split; [right; exact Hin|exact Hm].
      * intros (or & Hin & Hm).
        apply elem_of_cons in Hin as [->|Hin]; [contradiction|].
        exists or. split; assumption.
Qed.

Lemma Enqueue_scan_fold {Q : Type} (k : string)
    (enqueue : NamespacedName.t -> Q -> Q) (cg : ConsumerGroup.t)
    (refs : list OwnerReference.t) (q : Q) :
  consumergroup.Enqueue_scan (strings.ToLower k) enqueue cg refs q
  = fold_left (fun q key => enqueue key q)
      (map (routingKey cg) (filter (kindMatches k) refs)) q.
Proof.
  revert q. induction refs as [|r rest IH]; intros q; simpl; [reflexivity|].
  destruct (decide (strings.ToLower (OwnerReference.Kind r)
                    = strings.ToLower k)) as [Heq|Hne].
  - rewrite (filter_cons_True (kindMatches k)) by exact Heq. simpl. apply IH.
  - rewrite (filter_cons_False (kindMatches k)) by exact Hne. apply IH.
Qed.

Lemma fold_record (keys q : list NamespacedName.t) :
  fold_left (fun q key => consumergroup.record key q) keys q = (q ++ keys)%list.
Proof.
  revert q. induction keys as [|key keys IH]; intros q; simpl.
  - rewrite app_nil_r. reflexivity.
  - rewrite IH. unfold consumergroup.record. rewrite <- app_assoc. reflexivity.
Qed.

(** C3: the predicate returned by [Filter k] answers true exactly for a
    ConsumerGroup one of whose direct owner references has a kind equal to
    [k] once both are lower-cased; it answers false exactly for an object of
    another type or a ConsumerGroup without such a reference.  Only the
    object's own reference list is consulted. *)
Theorem Filter_true_iff_owner_kind (k : string) (obj : Object) :
  (consumergroup.Filter k obj = Returns true <->
   exists cg, obj = ConsumerGroupPtr (Some cg) /\
     exists or, or ∈ ConsumerGroup.OwnerReferences cg /\ kindMatches k or) /\
  (consumergroup.Filter k obj = Returns false <->
   (exists ty, obj = OtherValue ty) \/
   exists cg, obj = ConsumerGroupPtr (Some cg) /\
     forall or, or ∈ ConsumerGroup.OwnerReferences cg -> ~ kindMatches k or).
Proof.
  destruct obj as [[cg|]|ty]; simpl.
  - pose proof (Filter_scan_true k (ConsumerGroup.OwnerReferences cg)) as Hs.
    unfold consumergroup.Filter. simpl. split; split.
    + intros Hr. injection Hr as Hr. exists cg. split; [reflexivity|].
      apply Hs, Hr.
    + intros (cg' & Heq & Hex). injection Heq as <-.
      f_equal. apply Hs, Hex.
    + intros Hr. injection Hr as Hr. right. exists cg. split; [reflexivity|].
      intros or Hin Hm.
      assert (consumergroup.Filter_scan (strings.ToLower k)
                (ConsumerGroup.OwnerReferences cg) = true) as Ht
        by (apply Hs; exists or; split; assumption).
      congruence.
    + intros [(ty & Heq)|(cg' & Heq & Hno)]; [discriminate|].
      injection Heq as <-. f_equal.
      destruct (consumergroup.Filter_scan (strings.ToLower k)
                  (ConsumerGroup.OwnerReferences cg)) eqn:Hsc; [|reflexivity].
      destruct (proj1 Hs eq_refl) as (or & Hin & Hm). destruct (Hno or Hin Hm).
  - split; split.
    + discriminate.
    + intros (cg & Heq & _). discriminate.
    + discriminate.
    + intros [(ty & Heq)|(cg & Heq & _)]; discriminate.
  - split; split.
    + discriminate.
    + intros (cg & Heq & _). discriminate.
    + intros _. left. exists ty. reflexivity.
    + reflexivity.
Qed.

(** C4: on a ConsumerGroup, the function returned by [Enqueue k enqueue]
    runs [enqueue] on the keys of the owner references whose kind matches
    [k] case-insensitively, one call per such reference and in the order
    of the reference list, each key made of the ConsumerGroup's namespace
    and the reference's name; a recording queue sees exactly those keys,
    and with no matching reference the queue is left as it was. *)
Theorem Enqueue_once_per_matching_owner (k : string) (cg : ConsumerGroup.t) :
  let keys := map (routingKey cg)
                (filter (kindMatches k) (ConsumerGroup.OwnerReferences cg)) in
  (forall (Q : Type) (enqueue : NamespacedName.t -> Q -> Q) (q : Q),
     consumergroup.Enqueue k enqueue (ConsumerGroupPtr (Some cg)) q
     = Returns (fold_left (fun q key => enqueue key q) keys q)) /\
  consumergroup.Enqueue k consumergroup.record (ConsumerGroupPtr (Some cg)) []
  = Returns keys /\
  length keys
  = length (filter (kindMatches k) (ConsumerGroup.OwnerReferences cg)).
Proof.
  intros keys.
  assert (forall (Q : Type) (enqueue : NamespacedName.t -> Q -> Q) (q : Q),
     consumergroup.Enqueue k enqueue (ConsumerGroupPtr (Some cg)) q
     = Returns (fold_left (fun q key => enqueue key q) keys q)) as Hgen.
  { intros Q enqueue q. unfold consumergroup.Enqueue. simpl.
    rewrite Enqueue_scan_fold. reflexivity. }
  split; [exact Hgen|]. split.
  - rewrite Hgen, fold_record. reflexivity.
  - unfold keys. apply length_map.
Qed.

(** C7: an object that is not a ConsumerGroup makes the predicate of
    [Filter] return false and the function of [Enqueue] return without a
    call of [enqueue]: the queue state is untouched, and a recording queue
    stays empty.  Both return normally. *)
Theorem non_ConsumerGroup_no_match (k : string) (ty : string) :
  consumergroup.Filter k (OtherValue ty) = Returns false /\
  (forall (Q : Type) (enqueue : NamespacedName.t -> Q -> Q) (q : Q),
     consumergroup.Enqueue k enqueue (OtherValue ty) q = Returns q) /\
  consumergroup.Enqueue k consumergroup.record (OtherValue ty) [] = Returns [].
Proof. repeat split. Qed.

End RouterProperties.

(** ** The condition manager *)

Section Manager.
Variable now : apis.Time.
Variable cs : apis.ConditionSet.

Lemma lookup_setCondition_eq t st reason message (conds : apis.Conditions) :
  exists c,
    apis.setCondition now cs t st reason message conds !! t = Some c /\
    apis.Status c = st /\ apis.Reason c = reason /\ apis.Message c = message.
Proof.
  unfold apis.setCondition. eexists. rewrite lookup_insert_eq.
  split; [reflexivity|]. simpl. repeat split.
Qed.

Lemma lookup_setCondition_ne t u st reason message (conds : apis.Conditions) :
  t <> u ->
  apis.setCondition now cs t st reason message conds !! u = conds !! u.
Proof. intros Hne. unfold apis.setCondition. apply lookup_insert_ne, Hne. Qed.

(** The aggregate computation writes the aggregate condition only. *)
Lemma recomputeAggregate_other (conds : apis.Conditions) u :
  u <> apis.happy cs ->
  apis.recomputeAggregate now cs conds !! u = conds !! u.
Proof.
  intros Hne. unfold apis.recomputeAggregate.
  repeat case_match; apply lookup_setCondition_ne; congruence.
Qed.



(** A condition other than the aggregate keeps what a mark primitive wrote. *)
Lemma lookup_marked t st reason message (conds : apis.Conditions) :
  t <> apis.happy cs ->
  exists c,
    apis.recomputeAggregate now cs
      (apis.setCondition now cs t st reason message conds) !! t = Some c /\
    apis.Status c = st /\ apis.Reason c = reason /\ apis.Message c = message.
Proof.
  intros Hne. rewrite recomputeAggregate_other by exact Hne.
  apply lookup_setCondition_eq.
Qed.

End Manager.

(** ** The lifecycle wrappers *)

Section LifecycleProperties.
Context `{apis.URLType}.





(** The first unresolved dependent is unique. *)
Lemma firstUnresolved_unique cs (conds : apis.Conditions) t t' :
  firstUnresolved cs conds t -> firstUnresolved cs conds t' -> t = t'.
Proof.
  intros Ht Ht'.
  apply (find_first_split (fun u => apis.unresolved (conds !! u))) in Ht.
  apply (find_first_split (fun u => apis.unresolved (conds !! u))) in Ht'.
  congruence.
Qed.

End LifecycleProperties.


Section SinkAndDeployment.
Context `{apis.URLType}.
Variable now : apis.Time.

Lemma urlPresent_true (a : Addressable.t) :
  v1.urlPresent a = true <->
  exists u, Addressable.URL a = Some u /\ apis.IsEmpty u = false.
Proof.
  unfold v1.urlPresent. destruct (Addressable.URL a) as [u|].
  - rewrite negb_true_iff. split.
    + intros He. exists u. split; [reflexivity|exact He].
    + intros (u' & Heq & He). injection Heq as <-. exact He.
  - split; [discriminate|]. intros (u & Heq & _). discriminate.
Qed.

Lemma SinkProvided_not_Ready :
  v1.KafkaConditionSinkProvided <> apis.happy v1.KafkaSourceCondSet.
Proof. discriminate. Qed.

Lemma Deployed_not_Ready :
  v1.KafkaConditionDeployed <> apis.happy v1.KafkaSourceCondSet.
Proof. discriminate. Qed.

(** C2: [MarkSink] returns for every addressable; SinkProvided is True and
    the status fields SinkURI, SinkCACerts and SinkAudience are the
    address's URL, CA certificates and audience exactly when the address
    has a URL that is present and not empty; SinkProvided is Unknown with
    reason "SinkEmpty" exactly when it has not. *)
Theorem MarkSink_provided_iff_url_present
    (addr : Addressable.t) (s : v1.KafkaSourceStatus) :
  exists s',
    v1.MarkSink now v1.KafkaSourceCondSet (Some addr) s = Returns s' /\
    ((statusOf (v1.GetCondition v1.KafkaConditionSinkProvided s')
      = Some apis.ConditionTrue /\
      v1.SinkURI s' = Addressable.URL addr /\
      v1.SinkCACerts s' = Addressable.CACerts addr /\
      v1.SinkAudience s' = Addressable.Audience addr) <->
     (exists u, Addressable.URL addr = Some u /\ apis.IsEmpty u = false)) /\
    ((statusOf (v1.GetCondition v1.KafkaConditionSinkProvided s')
      = Some apis.ConditionUnknown /\
      apis.reasonOf (v1.GetCondition v1.KafkaConditionSinkProvided s')
      = "SinkEmpty") <->
     ~ (exists u, Addressable.URL addr = Some u /\ apis.IsEmpty u = false)).
Proof.
  pose proof (urlPresent_true addr) as Hp.
  unfold v1.MarkSink. cbn [mbind Result_bind deref mret Result_ret].
  unfold v1.GetCondition, apis.GetCondition, statusOf.
  destruct (v1.urlPresent addr) eqn:Hurl; eexists; (split; [reflexivity|]);
    simpl.
  - assert (exists u, Addressable.URL addr = Some u /\ apis.IsEmpty u = false)
      as Hu by (apply Hp; reflexivity).
    destruct (lookup_marked now v1.KafkaSourceCondSet
                v1.KafkaConditionSinkProvided apis.ConditionTrue "" ""
                (v1.Conditions s) SinkProvided_not_Ready)
      as (c & Hc & Hst & _).
    unfold apis.MarkTrue. rewrite Hc. simpl. rewrite Hst. split.
    + split; [intros _; exact Hu|intros _; repeat split].
    + split; [intros [Hk _]; discriminate|intros Hn; destruct (Hn Hu)].
  - assert (~ exists u, Addressable.URL addr = Some u /\ apis.IsEmpty u = false)
      as Hu by (intros Hex; apply Hp in Hex; discriminate).
    destruct (lookup_marked now v1.KafkaSourceCondSet
                v1.KafkaConditionSinkProvided apis.ConditionUnknown "SinkEmpty"
                (fmt.Sprintf "Sink has resolved to empty.%s" [""])
                (v1.Conditions s) SinkProvided_not_Ready)
      as (c & Hc & Hst & Hr & _).
    unfold apis.MarkUnknown. rewrite Hc. simpl. rewrite Hst, Hr. split.
    + split; [intros [Hk _]; discriminate|intros Hex; destruct (Hu Hex)].
    + split; [intros _; exact Hu|intros _; split; reflexivity].
Qed.

(** C10: [MarkSink] with an address whose URL is nil or empty returns a
    status whose SinkURI, SinkCACerts and SinkAudience are those it had
    before the call, whatever they were, and whose SinkProvided condition
    is Unknown. *)
Theorem MarkSink_empty_keeps_sink_fields
    (addr : Addressable.t) (s : v1.KafkaSourceStatus) :
  (Addressable.URL addr = None \/
   exists u, Addressable.URL addr = Some u /\ apis.IsEmpty u = true) ->
  exists s',
    v1.MarkSink now v1.KafkaSourceCondSet (Some addr) s = Returns s' /\
    v1.SinkURI s' = v1.SinkURI s /\
    v1.SinkCACerts s' = v1.SinkCACerts s /\
    v1.SinkAudience s' = v1.SinkAudience s /\
    statusOf (v1.GetCondition v1.KafkaConditionSinkProvided s')
    = Some apis.ConditionUnknown.
Proof.
  intros Hempty.
  assert (v1.urlPresent addr = false) as Hurl.
  { unfold v1.urlPresent.
    destruct Hempty as [->|(u & -> & ->)]; reflexivity. }
  unfold v1.MarkSink. cbn [mbind Result_bind deref mret Result_ret].
  rewrite Hurl. eexists. split; [reflexivity|]. simpl. repeat split.
  unfold v1.GetCondition, apis.GetCondition, statusOf, apis.MarkUnknown.
  cbn [v1.Manage v1.Conditions].
  destruct (lookup_marked now v1.KafkaSourceCondSet
              v1.KafkaConditionSinkProvided apis.ConditionUnknown "SinkEmpty"
              (fmt.Sprintf "Sink has resolved to empty.%s" [""])
              (v1.Conditions s) SinkProvided_not_Ready)
    as (c & Hc & Hst & _).
  rewrite Hc. simpl. rewrite Hst. reflexivity.
Qed.

Lemma Sprintf_deployment_unavailable (name : string) :
  fmt.Sprintf "The Deployment '%s' is unavailable." [name]
  = "The Deployment '" +:+ name +:+ "' is unavailable.".
Proof. reflexivity. Qed.

(** C5: [MarkDeployed] returns for every deployment [d].  When the
    availability predicate on [d]'s status with default false holds,
    Deployed is True and the Consumers field is [d]'s replica count;
    otherwise Deployed is False with reason "DeploymentUnavailable" and a
    message that contains [d]'s name. *)
Theorem MarkDeployed_follows_availability
    (d : Deployment.t) (s : v1.KafkaSourceStatus) :
  exists available s',
    v1.DeploymentIsAvailable (Some (Deployment.Status d)) false
    = Returns available /\
    v1.MarkDeployed now v1.KafkaSourceCondSet (Some d) s = Returns s' /\
    let deployed := v1.GetCondition v1.KafkaConditionDeployed s' in
    if available : bool then
      statusOf deployed = Some apis.ConditionTrue /\
      v1.Consumers s' = DeploymentStatus.Replicas (Deployment.Status d)
    else
      statusOf deployed = Some apis.ConditionFalse /\
      apis.reasonOf deployed = "DeploymentUnavailable" /\
      contains (apis.messageOf deployed) (Deployment.Name d).
Proof.
  unfold v1.MarkDeployed. cbn [mbind Result_bind deref mret Result_ret].
  rewrite duck_DeploymentIsAvailable_agrees.
  unfold v1.DeploymentIsAvailable. cbn [mbind Result_bind deref mret Result_ret].
  destruct (v1.DeploymentIsAvailable_scan
              (DeploymentStatus.Conditions (Deployment.Status d)) false);
    eexists; eexists; (split; [reflexivity|]); (split; [reflexivity|]);
    unfold v1.GetCondition, apis.GetCondition, statusOf; simpl.
  - destruct (lookup_marked now v1.KafkaSourceCondSet
                v1.KafkaConditionDeployed apis.ConditionTrue "" ""
                (v1.Conditions s) Deployed_not_Ready) as (c & Hc & Hst & _).
    unfold apis.MarkTrue. rewrite Hc. simpl. rewrite Hst. split; reflexivity.
  - destruct (lookup_marked now v1.KafkaSourceCondSet
                v1.KafkaConditionDeployed apis.ConditionFalse
                "DeploymentUnavailable"
                (fmt.Sprintf "The Deployment '%s' is unavailable."
                   [Deployment.Name d])
                (v1.Conditions s) Deployed_not_Ready)
      as (c & Hc & Hst & Hr & Hm).
    unfold apis.MarkFalse. rewrite Hc. simpl. rewrite Hst, Hr, Hm.
    repeat split.
    exists "The Deployment '", "' is unavailable.".
    apply Sprintf_deployment_unavailable.
Qed.

End SinkAndDeployment.

(** A status with a resolved sink, marked with an address whose URL is
    empty: the three sink fields keep the earlier resolution. *)
Lemma MarkSink_empty_keeps_sink_fields_witness :
  exists s',
    v1.MarkSink 5%Z v1.KafkaSourceCondSet (Some emptyAddress) resolvedStatus
    = Returns s' /\
    v1.SinkURI s' = Some (urlOf "http://sink.example") /\
    v1.SinkCACerts s' = Some "ca-bundle" /\
    v1.SinkAudience s' = Some "audience" /\
    statusOf (v1.GetCondition v1.KafkaConditionSinkProvided s')
    = Some apis.ConditionUnknown.
Proof.
  apply (MarkSink_empty_keeps_sink_fields (H := textURL) 5%Z
           emptyAddress resolvedStatus).
  right. exists (urlOf ""). split; reflexivity.
Defined.

(** ** Initialization *)

Section Initialization.
Variable cs : apis.ConditionSet.

Lemma lookup_initializeCondition now (conds : apis.Conditions) a t :
  apis.initializeCondition now cs conds a !! t
  = match conds !! t with
    | Some c => Some c
    | None => if decide (t = a) then Some (initialCondition now cs t) else None
    end.
Proof.
  unfold apis.initializeCondition, apis.setCondition.
  destruct (conds !! a) as [ca|] eqn:Ha.
  - destruct (conds !! t) as [c|] eqn:Ht; [reflexivity|].
    destruct (decide (t = a)) as [->|Hne]; [congruence|reflexivity].
  - destruct (decide (t = a)) as [->|Hne].
    + rewrite lookup_insert_eq, Ha. reflexivity.
    + rewrite lookup_insert_ne by congruence.
      destruct (conds !! t); reflexivity.
Qed.

Lemma lookup_initialize_fold now (l : list apis.ConditionType)
    (conds : apis.Conditions) t :
  fold_left (apis.initializeCondition now cs) l conds !! t
  = match conds !! t with
    | Some c => Some c
    | None => if decide (t ∈ l) then Some (initialCondition now cs t) else None
    end.
Proof.
  revert conds. induction l as [|a l IH]; intros conds; simpl.
  - destruct (conds !! t); [reflexivity|].
    destruct (decide (t ∈ [])) as [Hin|_]; [inversion Hin|reflexivity].
  - rewrite IH, lookup_initializeCondition.
    destruct (conds !! t) as [c|]; [reflexivity|].
    destruct (decide (t = a)) as [->|Hne].
    + rewrite decide_True by left. reflexivity.
    + destruct (decide (t ∈ l)) as [Hin|Hnin].
      * rewrite decide_True by (right; exact Hin). reflexivity.
      * rewrite decide_False; [reflexivity|].
        intros Hin. apply elem_of_cons in Hin as [?|?]; contradiction.
Qed.

(** C9: calling [InitializeConditions] a second time, at whatever time,
    gives the status of the first call; and a call keeps every condition
    that is present as it is, adding only the declared conditions (the
    aggregate and the dependents) that are absent. *)
Theorem InitializeConditions_idempotent `{apis.URLType}
    (now now' : apis.Time) (s : v1.KafkaSourceStatus) :
  v1.InitializeConditions now' cs (v1.InitializeConditions now cs s)
  = v1.InitializeConditions now cs s /\
  forall t,
    v1.GetCondition t (v1.InitializeConditions now cs s)
    = match v1.GetCondition t s with
      | Some c => Some c
      | None =>
          if decide (t ∈ apis.happy cs :: apis.dependents cs)
          then Some (initialCondition now cs t) else None
      end.
Proof.
  assert (forall t,
    v1.GetCondition t (v1.InitializeConditions now cs s)
    = match v1.GetCondition t s with
      | Some c => Some c
      | None =>
          if decide (t ∈ apis.happy cs :: apis.dependents cs)
          then Some (initialCondition now cs t) else None
      end) as Hlookup.
  { intros t. unfold v1.GetCondition, apis.GetCondition,
      v1.InitializeConditions, apis.InitializeConditions.
    cbn [v1.Manage v1.Conditions]. apply lookup_initialize_fold. }
  split; [|exact Hlookup].
  unfold v1.InitializeConditions at 1. unfold v1.Manage at 1.
  destruct (v1.InitializeConditions now cs s) as [conds uri ca aud n cl] eqn:Hs.
  cbn [v1.Conditions v1.SinkURI v1.SinkCACerts v1.SinkAudience v1.Consumers
       v1.Claims].
  f_equal. apply map_eq. intros t.
  unfold apis.InitializeConditions. rewrite lookup_initialize_fold.
  destruct (conds !! t) as [c|] eqn:Hc; [reflexivity|].
  specialize (Hlookup t). unfold v1.GetCondition, apis.GetCondition in Hlookup.
  cbn [v1.Conditions] in Hlookup. rewrite Hc in Hlookup.
  destruct (v1.Conditions s !! t); [discriminate|].
  destruct (decide (t ∈ apis.happy cs :: apis.dependents cs));
    [discriminate|reflexivity].
Qed.

End Initialization.

(** ** Totality *)

Section Totality.
Context `{apis.URLType} `{strings.Folding}.

Lemma mark_returns_iff_allocated (now : apis.Time) (cs : apis.ConditionSet)
    (call : v1.MarkCall) (s : v1.KafkaSourceStatus) :
  returns (v1.mark now cs call s) <-> argumentAllocated call.
Proof.
  unfold returns. split.
  - destruct call; simpl; try (intros _; exact I).
    + destruct addr; [discriminate|]. intros (s' & Hs). discriminate.
    + destruct d; [discriminate|]. intros (s' & Hs). discriminate.
  - destruct call; simpl; intros Harg; try (eexists; reflexivity).
    + destruct addr as [a|]; [|contradiction].
      unfold v1.MarkSink. cbn [mbind Result_bind deref mret Result_ret].
      destruct (v1.urlPresent a); eexists; reflexivity.
    + destruct d as [dv|]; [|contradiction].
      unfold v1.MarkDeployed, duck.DeploymentIsAvailable.
      cbn [mbind Result_bind deref mret Result_ret].
      match goal with |- context [if ?b then _ else _] => destruct b end;
        eexists; reflexivity.
Qed.

(** The loop of [Enqueue] returns exactly when each call of the callback
    does, the queue state threaded from call to call. *)
Lemma EnqueueFunc_scan_returns {Q : Type} (k : string)
    (enqueue : option (NamespacedName.t -> Q -> Result Q))
    (cg : ConsumerGroup.t) (refs : list OwnerReference.t) (q : Q) :
  returns (consumergroup.EnqueueFunc_scan (strings.ToLower k) enqueue cg refs q)
  <-> callsReturn enqueue (map (routingKey cg) (filter (kindMatches k) refs)) q.
Proof.
  revert q. induction refs as [|r rest IH]; intros q.
  - simpl. split; [intros _; exact I|]. intros _. exists q. reflexivity.
  - cbn [consumergroup.EnqueueFunc_scan].
    destruct (decide (strings.ToLower (OwnerReference.Kind r)
                      = strings.ToLower k)) as [Heq|Hne].
    + rewrite (filter_cons_True (kindMatches k)) by exact Heq.
      cbn [map callsReturn]. change (routingKey cg r) with
        {| NamespacedName.Namespace := ConsumerGroup.GetNamespace cg;
           NamespacedName.Name := OwnerReference.Name r |}.
      destruct (consumergroup.invoke enqueue
                  {| NamespacedName.Namespace := ConsumerGroup.GetNamespace cg;
                     NamespacedName.Name := OwnerReference.Name r |} q)
        as [q'|e] eqn:Hcall; cbn [mbind Result_bind].
      * rewrite IH. split.
        -- intros Hrest. exists q'. split; [reflexivity|exact Hrest].
        -- intros (q'' & Hq & Hrest). injection Hq as <-. exact Hrest.
      * split.
        -- intros (q'' & Hq). discriminate.
        -- intros (q'' & Hq & _). discriminate.
    + rewrite (filter_cons_False (kindMatches k)) by exact Hne. apply IH.
Qed.

(** A callback that always returns is the callback of [Enqueue]. *)
Lemma EnqueueFunc_total {Q : Type} (k : string)
    (enqueue : NamespacedName.t -> Q -> Q) (obj : Object) (q : Q) :
  consumergroup.EnqueueFunc k (Some (fun key q => Returns (enqueue key q))) obj q
  = consumergroup.Enqueue k enqueue obj q.
Proof.
  destruct obj as [[cg|]|ty]; try reflexivity.
  unfold consumergroup.EnqueueFunc, consumergroup.Enqueue.
  cbn [mbind Result_bind deref mret Result_ret].
  generalize (ConsumerGroup.OwnerReferences cg) as refs. intros refs.
  revert q. induction refs as [|r rest IH]; intros q; simpl; [reflexivity|].
  destruct (decide (strings.ToLower (OwnerReference.Kind r)
                    = strings.ToLower k)); apply IH.
Qed.

(** A nil callback is called without harm only when it is not called. *)
Lemma callsReturn_nil {Q : Type} (keys : list NamespacedName.t) (q : Q) :
  callsReturn None keys q <-> keys = [].
Proof.
  destruct keys as [|key rest]; simpl.
  - split; intros _; [reflexivity|exact I].
  - split; [|discriminate]. intros (q' & Hq & _). discriminate.
Qed.

(** C8, as the code has it: on an allocated status, an operation of the
    core (a Mark* operation, InitializeConditions, GetCondition, IsReady,
    the predicate of Filter, the function of Enqueue) returns normally
    exactly on the inputs without a nil pointer to dereference and without
    a failing callback: [MarkSink] on a non-nil addressable, [MarkDeployed]
    on a non-nil deployment, the router on an object that is not a nil
    [*ConsumerGroup], and [Enqueue] with a callback that returns on each key
    of a matching owner reference (a nil callback only when none matches).
    On every other input the operation panics. *)
Theorem core_operations_return_iff_well_formed {Q : Type}
    (now : apis.Time) (cs : apis.ConditionSet) (s : v1.KafkaSourceStatus)
    (c : CoreCall Q) :
  returns (runCore now cs s c) <-> wellFormed c.
Proof.
  destruct c as [call| |t| |k obj|k enqueue obj q];
    cbn [runCore wellFormed].
  - rewrite <- (mark_returns_iff_allocated now cs call s). unfold returns.
    destruct (v1.mark now cs call s) as [s'|e]; cbn [mbind Result_bind].
    + split; intros _; eexists; reflexivity.
    + split; intros (x & Hx); discriminate.
  - split; [intros _; exact I|intros _; eexists; reflexivity].
  - split; [intros _; exact I|intros _; eexists; reflexivity].
  - split; [intros _; exact I|intros _; eexists; reflexivity].
  - destruct obj as [[cg|]|ty]; unfold returns; simpl.
    + split; [discriminate|intros _; eexists; reflexivity].
    + split; [intros (x & Hx); discriminate|contradiction].
    + split; [discriminate|intros _; eexists; reflexivity].
  - destruct obj as [[cg|]|ty].
    + rewrite <- (EnqueueFunc_scan_returns k enqueue cg).
      unfold consumergroup.EnqueueFunc, returns.
      cbn [mbind Result_bind deref].
      destruct (consumergroup.EnqueueFunc_scan (strings.ToLower k) enqueue cg
                  (ConsumerGroup.OwnerReferences cg) q) as [q'|e];
        cbn [mbind Result_bind].
      * split; intros _; eexists; reflexivity.
      * split; intros (x & Hx); discriminate.
    + unfold returns. simpl. split; [intros (x & Hx); discriminate|contradiction].
    + unfold returns. simpl. split; [intros _; exact I|].
      intros _. eexists. reflexivity.
Qed.

End Totality.

(** C8 as stated fails at the nil pointer: [MarkSink] on a nil addressable
    and [MarkDeployed] on a nil deployment panic on the dereference, and so
    does the predicate of [Filter] on a nil [*ConsumerGroup]. *)
Lemma nil_pointer_arguments_panic :
  v1.MarkSink (H := textURL) 1%Z v1.KafkaSourceCondSet None emptyStatus
  = Panics NilPointerDereference /\
  ~ returns (v1.MarkSink (H := textURL) 1%Z v1.KafkaSourceCondSet None
               emptyStatus) /\
  ~ returns (v1.MarkDeployed (H := textURL) 1%Z v1.KafkaSourceCondSet None
               emptyStatus) /\
  ~ returns (consumergroup.Filter (H := strings.ASCII) "KafkaSource"
               (ConsumerGroupPtr None)).
Proof.
  split; [reflexivity|].
  repeat split; intros (v & Hv); discriminate Hv.
Qed.

(** ** The scenarios of the specification, run on the embedding *)

Example Filter_ignores_case :
  consumergroup.Filter (H := strings.ASCII) "KafkaSource"
    (ConsumerGroupPtr (Some (ownedBy [("kafkasource", "a")]))) = Returns true /\
  consumergroup.Filter (H := strings.ASCII) "KafkaSource"
    (ConsumerGroupPtr (Some (ownedBy [("KAFKASOURCE", "a")]))) = Returns true /\
  consumergroup.Filter (H := strings.ASCII) "KafkaSource"
    (ConsumerGroupPtr (Some (ownedBy [("Trigger", "a")]))) = Returns false.
Proof. repeat split. Qed.

Example Enqueue_two_owners :
  consumergroup.Enqueue (H := strings.ASCII) "Trigger" consumergroup.record
    (ConsumerGroupPtr
       (Some (ownedBy [("Trigger", "a"); ("Broker", "x"); ("Trigger", "b")])))
    []
  = Returns [ {| NamespacedName.Namespace := "ns"; NamespacedName.Name := "a" |};
              {| NamespacedName.Namespace := "ns"; NamespacedName.Name := "b" |} ].
Proof. reflexivity. Qed.

Example initialized_is_unknown :
  let s := v1.InitializeConditions 1%Z v1.KafkaSourceCondSet
             (emptyStatus (H := textURL)) in
  map (fun t => statusOf (v1.GetCondition t s))
      (apis.happy v1.KafkaSourceCondSet
       :: apis.dependents v1.KafkaSourceCondSet)
  = replicate 6 (Some apis.ConditionUnknown) /\
  v1.IsReady v1.KafkaSourceCondSet s = false.
Proof. split; reflexivity. Qed.

Example reconcile_ready :
  exists s,
    reconcile (v1.MarkConnectionEstablished 4%Z v1.KafkaSourceCondSet)
    = Returns s /\
    v1.IsReady v1.KafkaSourceCondSet s = true /\
    v1.Consumers s = 3%Z.
Proof. eexists. split; [reflexivity|]. split; reflexivity. Qed.

Example reconcile_connection_failed :
  exists s,
    reconcile (v1.MarkConnectionNotEstablished 4%Z v1.KafkaSourceCondSet
                 "DialTimeout" "could not reach broker" [])
    = Returns s /\
    v1.IsReady v1.KafkaSourceCondSet s = false /\
    statusOf (v1.GetCondition v1.KafkaConditionReady s)
    = Some apis.ConditionFalse /\
    apis.reasonOf (v1.GetCondition v1.KafkaConditionReady s) = "DialTimeout".
Proof. eexists. split; [reflexivity|]. repeat split. Qed.

Example MarkSink_empty_address :
  exists s,
    v1.MarkSink 2%Z v1.KafkaSourceCondSet (Some emptyAddress) emptyStatus
    = Returns s /\
    statusOf (v1.GetCondition v1.KafkaConditionSinkProvided s)
    = Some apis.ConditionUnknown /\
    apis.reasonOf (v1.GetCondition v1.KafkaConditionSinkProvided s)
    = "SinkEmpty" /\
    apis.messageOf (v1.GetCondition v1.KafkaConditionSinkProvided s)
    = "Sink has resolved to empty.".
Proof. eexists. split; [reflexivity|]. repeat split. Qed.

(** * Further properties of the router *)

Section RouterFurther.
Context `{strings.Folding}.

Lemma Filter_scan_false (k : string) (refs : list OwnerReference.t) :
  consumergroup.Filter_scan (strings.ToLower k) refs = false <->
  filter (kindMatches k) refs = [].
Proof.
  induction refs as [|r rest IH]; simpl; [split; reflexivity|].
  destruct (decide (strings.ToLower (OwnerReference.Kind r)
                    = strings.ToLower k)) as [Heq|Hne].
  - rewrite (filter_cons_True (kindMatches k)) by exact Heq.
    split; discriminate.
  - rewrite (filter_cons_False (kindMatches k)) by exact Hne. exact IH.
Qed.

(** What a recording queue holds after the function of [Enqueue] ran on a
    ConsumerGroup. *)
Lemma Enqueue_record (k : string) (cg : ConsumerGroup.t)
    (q : list NamespacedName.t) :
  consumergroup.Enqueue k consumergroup.record (ConsumerGroupPtr (Some cg)) q
  = Returns (q ++ map (routingKey cg)
                    (filter (kindMatches k)
                       (ConsumerGroup.OwnerReferences cg)))%list.
Proof.
  unfold consumergroup.Enqueue. cbn [mbind Result_bind deref mret Result_ret].
  rewrite Enqueue_scan_fold, fold_record. reflexivity.
Qed.

(** X1: [Filter] and [Enqueue] built for the same kind agree on every
    object: the predicate answers true exactly when the function hands the
    queue at least one key, and false exactly when it hands it none. *)
Theorem Filter_agrees_with_Enqueue (k : string) (obj : Object) :
  (consumergroup.Filter k obj = Returns true <->
   exists keys,
     consumergroup.Enqueue k consumergroup.record obj [] = Returns keys /\
     keys <> []) /\
  (consumergroup.Filter k obj = Returns false <->
   consumergroup.Enqueue k consumergroup.record obj [] = Returns []).
Proof.
  destruct obj as [[cg|]|ty].
  - rewrite Enqueue_record. simpl.
    unfold consumergroup.Filter. cbn [mbind Result_bind deref mret Result_ret].
    pose proof (Filter_scan_false k (ConsumerGroup.OwnerReferences cg)) as Hf.
    destruct (consumergroup.Filter_scan (strings.ToLower k)
                (ConsumerGroup.OwnerReferences cg)) eqn:Hscan.
    + assert (filter (kindMatches k) (ConsumerGroup.OwnerReferences cg) <> [])
        as Hne by (intros Hnil; apply Hf in Hnil; discriminate).
      split; split.
      * intros _. eexists. split; [reflexivity|].
        intros Hnil. apply Hne. apply map_eq_nil in Hnil. exact Hnil.
      * reflexivity.
      * discriminate.
      * intros Hr. injection Hr as Hr. apply map_eq_nil in Hr. contradiction.
    + assert (filter (kindMatches k) (ConsumerGroup.OwnerReferences cg) = [])
        as Hnil by (apply Hf; reflexivity).
      rewrite Hnil. simpl. split; split.
      * discriminate.
      * intros (keys & Hr & Hne). injection Hr as <-. contradiction.
      * reflexivity.
      * reflexivity.
  - split; split; try discriminate.
    intros (keys & Hr & _). discriminate.
  - split; split; try reflexivity; try discriminate.
    intros (keys & Hr & Hne). injection Hr as <-. contradiction.
Qed.

(** X2: on an object that the predicate of [Filter] rejects, the function
    of [Enqueue] never calls its callback: it returns with the queue as it
    was, for every callback and queue. *)
Theorem Filter_false_Enqueue_noop (k : string) (obj : Object)
    (Q : Type) (enqueue : NamespacedName.t -> Q -> Q) (q : Q) :
  consumergroup.Filter k obj = Returns false ->
  consumergroup.Enqueue k enqueue obj q = Returns q.
Proof.
  destruct obj as [[cg|]|ty]; [|discriminate|reflexivity].
  unfold consumergroup.Filter, consumergroup.Enqueue.
  cbn [mbind Result_bind deref mret Result_ret].
  intros Hr. injection Hr as Hr. apply Filter_scan_false in Hr.
  rewrite Enqueue_scan_fold, Hr. reflexivity.
Qed.

(** X3: every key that the function of [Enqueue] hands over carries the
    namespace of the ConsumerGroup and the name of one of its owner
    references of a matching kind; there are no more keys than owner
    references. *)
Theorem Enqueue_keys_from_matching_owners (k : string) (cg : ConsumerGroup.t) :
  exists keys,
    consumergroup.Enqueue k consumergroup.record (ConsumerGroupPtr (Some cg)) []
    = Returns keys /\
    Forall (fun key =>
              NamespacedName.Namespace key = ConsumerGroup.Namespace cg /\
              exists or, or ∈ ConsumerGroup.OwnerReferences cg /\
                kindMatches k or /\
                NamespacedName.Name key = OwnerReference.Name or) keys /\
    length keys <= length (ConsumerGroup.OwnerReferences cg).
Proof.
  eexists. split; [apply Enqueue_record|]. simpl. split.
  - apply Forall_forall. intros key Hkey.
    apply list_elem_of_fmap in Hkey as (or & -> & Hor).
    apply list_elem_of_filter in Hor as [Hm Hin].
    split; [reflexivity|]. exists or. repeat split; assumption.
  - rewrite length_map. apply length_filter.
Qed.

(** X4: the predicate of [Filter] does not depend on the order of the
    owner references, nor on the namespace or name of the ConsumerGroup:
    two ConsumerGroups whose reference lists are permutations of each other
    get the same answer. *)
Theorem Filter_order_independent (k : string) (cg cg' : ConsumerGroup.t) :
  ConsumerGroup.OwnerReferences cg ≡ₚ ConsumerGroup.OwnerReferences cg' ->
  consumergroup.Filter k (ConsumerGroupPtr (Some cg))
  = consumergroup.Filter k (ConsumerGroupPtr (Some cg')).
Proof.
  intros Hperm. unfold consumergroup.Filter.
  cbn [mbind Result_bind deref mret Result_ret]. f_equal.
  pose proof (Filter_scan_true k (ConsumerGroup.OwnerReferences cg)) as H1.
  pose proof (Filter_scan_true k (ConsumerGroup.OwnerReferences cg')) as H2.
  destruct (consumergroup.Filter_scan (strings.ToLower k)
              (ConsumerGroup.OwnerReferences cg)) eqn:Hs;
    destruct (consumergroup.Filter_scan (strings.ToLower k)
                (ConsumerGroup.OwnerReferences cg')) eqn:Hs';
    try reflexivity.
  - destruct (proj1 H1 eq_refl) as (or & Hin & Hm).
    rewrite Hperm in Hin.
    assert (false = true) as Habs by (apply H2; exists or; split; assumption).
    discriminate.
  - destruct (proj1 H2 eq_refl) as (or & Hin & Hm).
    rewrite <- Hperm in Hin.
    assert (false = true) as Habs by (apply H1; exists or; split; assumption).
    discriminate.
Qed.

End RouterFurther.

Lemma Filter_false_Enqueue_noop_witness :
  consumergroup.Enqueue (H := strings.ASCII) "Trigger" consumergroup.record
    (ConsumerGroupPtr (Some (ownedBy [("Broker", "x")])))
    [ {| NamespacedName.Namespace := "ns"; NamespacedName.Name := "queued" |} ]
  = Returns
      [ {| NamespacedName.Namespace := "ns"; NamespacedName.Name := "queued" |} ].
Proof.
  apply (Filter_false_Enqueue_noop (H := strings.ASCII)). reflexivity.
Defined.

Lemma Filter_order_independent_witness :
  consumergroup.Filter (H := strings.ASCII) "Trigger"
    (ConsumerGroupPtr (Some (ownedBy [("Broker", "x"); ("trigger", "a")])))
  = consumergroup.Filter (H := strings.ASCII) "Trigger"
      (ConsumerGroupPtr (Some (ownedBy [("trigger", "a"); ("Broker", "x")]))).
Proof.
  apply (Filter_order_independent (H := strings.ASCII)).
  simpl. apply perm_swap.
Defined.

(** * Further properties of the availability predicate *)

Lemma DeploymentIsAvailable_scan_filter conds def :
  v1.DeploymentIsAvailable_scan (filter isAvailableType conds) def
  = v1.DeploymentIsAvailable_scan conds def.
Proof.
  induction conds as [|c rest IH]; [reflexivity|].
  destruct (decide (isAvailableType c)) as [Hc|Hc].
  - rewrite (filter_cons_True isAvailableType) by exact Hc. simpl.
    destruct (decide (DeploymentCondition.Type_ c
                      = appsv1.DeploymentAvailable)); [reflexivity|].
    contradiction.
  - rewrite (filter_cons_False isAvailableType) by exact Hc. simpl.
    destruct (decide (DeploymentCondition.Type_ c
                      = appsv1.DeploymentAvailable)); [contradiction|].
    exact IH.
Qed.

(** X5: the default of [DeploymentIsAvailable] decides the answer exactly
    when the status has no condition of type [DeploymentAvailable] (an
    empty condition list included): the answers for default true and for
    default false coincide if and only if such a condition is there. *)
Theorem DeploymentIsAvailable_default_matters_iff_absent
    (d : DeploymentStatus.t) :
  v1.DeploymentIsAvailable (Some d) true
  = v1.DeploymentIsAvailable (Some d) false <->
  exists c, c ∈ DeploymentStatus.Conditions d /\ isAvailableType c.
Proof.
  unfold v1.DeploymentIsAvailable. cbn [mbind Result_bind deref mret Result_ret].
  rewrite !DeploymentIsAvailable_scan_first.
  destruct (firstAvailable (DeploymentStatus.Conditions d)) as [c|] eqn:Hf.
  - split; [|reflexivity]. intros _.
    apply firstAvailable_Some in Hf as (before & after & Hsplit & _ & Hc).
    exists c. split; [|exact Hc].
    rewrite Hsplit. apply elem_of_app. right. left.
  - split; [discriminate|]. intros (c & Hin & Hc).
    destruct (proj1 (firstAvailable_None _) Hf c Hin Hc).
Qed.

(** X6: [DeploymentIsAvailable] looks at the conditions of type
    [DeploymentAvailable] only: dropping every other condition, and
    changing the replica count, leaves the answer as it is. *)
Theorem DeploymentIsAvailable_ignores_other_conditions
    (d : DeploymentStatus.t) (def : bool) (replicas : Z) :
  v1.DeploymentIsAvailable
    (Some {| DeploymentStatus.Replicas := replicas;
             DeploymentStatus.Conditions :=
               filter isAvailableType (DeploymentStatus.Conditions d) |}) def
  = v1.DeploymentIsAvailable (Some d) def.
Proof.
  unfold v1.DeploymentIsAvailable. cbn [mbind Result_bind deref mret Result_ret].
  simpl. rewrite DeploymentIsAvailable_scan_filter. reflexivity.
Qed.

(** * Further properties of the lifecycle wrappers *)

Section LifecycleFurther.
Context `{apis.URLType}.
Variable now : apis.Time.

Lemma marked_other cs T st reason message (conds : apis.Conditions) t :
  t <> T -> t <> apis.happy cs ->
  apis.recomputeAggregate now cs
    (apis.setCondition now cs T st reason message conds) !! t
  = conds !! t.
Proof.
  intros HT Hhappy. rewrite recomputeAggregate_other by exact Hhappy.
  apply lookup_setCondition_ne. congruence.
Qed.

(** Unfold a wrapper down to the manager's write and recomputation. *)
Ltac unfold_wrappers :=
  unfold v1.GetCondition, apis.GetCondition,
    v1.MarkNoSink, v1.MarkDeploying, v1.MarkNotDeployed,
    v1.MarkKeyTypeCorrect, v1.MarkKeyTypeIncorrect,
    v1.MarkConnectionEstablished, v1.MarkConnectionNotEstablished,
    v1.MarkInitialOffsetCommitted, v1.MarkInitialOffsetNotCommitted,
    v1.MarkOIDCIdentityCreatedSucceeded,
    v1.MarkOIDCIdentityCreatedSucceededWithReason,
    v1.MarkOIDCIdentityCreatedFailed, v1.MarkOIDCIdentityCreatedUnknown,
    apis.MarkTrue, apis.MarkTrueWithReason, apis.MarkFalse, apis.MarkUnknown;
  cbn [v1.Manage v1.setSink v1.setConsumers v1.Conditions].

(** X8: a mark operation that returns leaves Claims as it was; it leaves
    SinkURI, SinkCACerts and SinkAudience as they were unless it is a
    [MarkSink] whose address has a present, non-empty URL; and it leaves
    Consumers as it was unless it is a [MarkDeployed] of an available
    deployment (an unavailable one keeps the earlier consumer count). *)
Theorem mark_keeps_other_fields (cs : apis.ConditionSet)
    (call : v1.MarkCall) (s s' : v1.KafkaSourceStatus) :
  v1.mark now cs call s = Returns s' ->
  v1.Claims s' = v1.Claims s /\
  (if writesSink call then True
   else v1.SinkURI s' = v1.SinkURI s /\
        v1.SinkCACerts s' = v1.SinkCACerts s /\
        v1.SinkAudience s' = v1.SinkAudience s) /\
  (if writesConsumers call then True
   else v1.Consumers s' = v1.Consumers s).
Proof.
  destruct call; intros Hret; cbn [v1.mark] in Hret;
    cbn [writesSink writesConsumers];
    try (returned Hret; repeat split).
  - destruct addr as [a|]; [|discriminate]. unfold_call Hret.
    destruct (v1.urlPresent a); returned Hret; repeat split.
  - destruct d as [dv|]; [|discriminate].
    unfold v1.MarkDeployed in Hret. cbn [mbind Result_bind deref] in Hret.
    rewrite duck_DeploymentIsAvailable_agrees in Hret.
    unfold v1.DeploymentIsAvailable in Hret.
    cbn [mbind Result_bind deref mret Result_ret] in Hret.
    destruct (v1.DeploymentIsAvailable_scan
                (DeploymentStatus.Conditions (Deployment.Status dv)) false);
      returned Hret; repeat split.
Qed.

(** X9: a mark operation that returns changes no condition other than the
    one it names and the aggregate: every other condition, present or
    absent, is after the call what it was before. *)
Theorem mark_keeps_other_conditions (cs : apis.ConditionSet)
    (call : v1.MarkCall) (s s' : v1.KafkaSourceStatus)
    (t : apis.ConditionType) :
  v1.mark now cs call s = Returns s' ->
  t <> markedCondition call ->
  t <> apis.happy cs ->
  v1.GetCondition t s' = v1.GetCondition t s.
Proof.
  destruct call; simpl; intros Hret Ht Hhappy;
    try (returned Hret; unfold_wrappers; apply marked_other; assumption).
  - destruct addr as [a|]; [|discriminate]. unfold_call Hret.
    destruct (v1.urlPresent a); returned Hret; unfold_wrappers;
      apply marked_other; assumption.
  - destruct d as [dv|]; [|discriminate]. unfold_call Hret.
    match type of Hret with (if ?b then _ else _) = _ => destruct b end;
      returned Hret; unfold_wrappers; apply marked_other; assumption.
Qed.

(** X10: for a format whose verbs are among [%%], [%s] and [%v], and
    string operands, the reason and the formatted message given to a
    wrapper are read back by [GetCondition], under the condition and with
    the status that the wrapper stands for: False for the NoSink,
    NotDeployed, KeyTypeIncorrect, ConnectionNotEstablished,
    InitialOffsetNotCommitted and OIDCIdentityCreatedFailed wrappers,
    Unknown for Deploying and OIDCIdentityCreatedUnknown, True for
    OIDCIdentityCreatedSucceededWithReason. *)
Theorem reason_and_message_read_back
    (reason messageFormat : string) (messageA : list string)
    (s : v1.KafkaSourceStatus) :
  plainVerbs messageFormat = true ->
  let cs := v1.KafkaSourceCondSet in
  let message := fmt.Sprintf messageFormat messageA in
  recordedAs (v1.MarkNoSink now cs reason messageFormat messageA s)
    v1.KafkaConditionSinkProvided apis.ConditionFalse reason message /\
  recordedAs (v1.MarkDeploying now cs reason messageFormat messageA s)
    v1.KafkaConditionDeployed apis.ConditionUnknown reason message /\
  recordedAs (v1.MarkNotDeployed now cs reason messageFormat messageA s)
    v1.KafkaConditionDeployed apis.ConditionFalse reason message /\
  recordedAs (v1.MarkKeyTypeIncorrect now cs reason messageFormat messageA s)
    v1.KafkaConditionKeyType apis.ConditionFalse reason message /\
  recordedAs
    (v1.MarkConnectionNotEstablished now cs reason messageFormat messageA s)
    v1.KafkaConditionConnectionEstablished apis.ConditionFalse reason message /\
  recordedAs
    (v1.MarkInitialOffsetNotCommitted now cs reason messageFormat messageA s)
    v1.KafkaConditionInitialOffsetsCommitted apis.ConditionFalse
    reason message /\
  recordedAs
    (v1.MarkOIDCIdentityCreatedSucceededWithReason now cs reason messageFormat
       messageA s)
    v1.KafkaConditionOIDCIdentityCreated apis.ConditionTrue reason message /\
  recordedAs
    (v1.MarkOIDCIdentityCreatedFailed now cs reason messageFormat messageA s)
    v1.KafkaConditionOIDCIdentityCreated apis.ConditionFalse reason message /\
  recordedAs
    (v1.MarkOIDCIdentityCreatedUnknown now cs reason messageFormat messageA s)
    v1.KafkaConditionOIDCIdentityCreated apis.ConditionUnknown reason message.
Proof.
  intros _ cs message. unfold recordedAs.
  repeat split; unfold_wrappers; apply lookup_marked; discriminate.
Qed.

(** X11: the wrappers that mark a condition True without a reason
    (KeyTypeCorrect, ConnectionEstablished, InitialOffsetCommitted,
    OIDCIdentityCreatedSucceeded) leave the condition with empty reason and
    message, whatever an earlier failure had recorded there. *)
Theorem marked_true_clears_reason (s : v1.KafkaSourceStatus) :
  let cs := v1.KafkaSourceCondSet in
  recordedAs (v1.MarkKeyTypeCorrect now cs s)
    v1.KafkaConditionKeyType apis.ConditionTrue "" "" /\
  recordedAs (v1.MarkConnectionEstablished now cs s)
    v1.KafkaConditionConnectionEstablished apis.ConditionTrue "" "" /\
  recordedAs (v1.MarkInitialOffsetCommitted now cs s)
    v1.KafkaConditionInitialOffsetsCommitted apis.ConditionTrue "" "" /\
  recordedAs (v1.MarkOIDCIdentityCreatedSucceeded now cs s)
    v1.KafkaConditionOIDCIdentityCreated apis.ConditionTrue "" "".
Proof.
  intros cs. unfold recordedAs.
  repeat split; unfold_wrappers; apply lookup_marked; discriminate.
Qed.

(** X12: [MarkDeployed] marks Deployed True exactly when the first
    condition of type [DeploymentAvailable] in the deployment's status has
    status "True"; a deployment without such a condition (without any
    condition, say), or whose first one has another status ("Unknown"
    included), is marked False. *)
Theorem MarkDeployed_true_iff_first_available_true
    (d : Deployment.t) (s : v1.KafkaSourceStatus) :
  exists s',
    v1.MarkDeployed now v1.KafkaSourceCondSet (Some d) s = Returns s' /\
    let deployed := statusOf (v1.GetCondition v1.KafkaConditionDeployed s') in
    let firstTrue :=
      exists c,
        firstAvailable (DeploymentStatus.Conditions (Deployment.Status d))
        = Some c /\
        DeploymentCondition.Status c = "True" in
    (deployed = Some apis.ConditionTrue <-> firstTrue) /\
    (deployed = Some apis.ConditionFalse <-> ~ firstTrue).
Proof.
  unfold v1.MarkDeployed. cbn [mbind Result_bind deref].
  rewrite duck_DeploymentIsAvailable_agrees.
  unfold v1.DeploymentIsAvailable. cbn [mbind Result_bind deref mret Result_ret].
  rewrite DeploymentIsAvailable_scan_first.
  destruct (firstAvailable (DeploymentStatus.Conditions (Deployment.Status d)))
    as [c|] eqn:Hf.
  - destruct (decide (DeploymentCondition.Status c = "True")) as [Hst|Hst].
    + rewrite (bool_decide_eq_true_2 _ Hst).
      eexists. split; [reflexivity|]. unfold statusOf. unfold_wrappers.
      destruct (lookup_marked now v1.KafkaSourceCondSet
                  v1.KafkaConditionDeployed apis.ConditionTrue "" ""
                  (v1.Conditions s) Deployed_not_Ready) as (x & Hx & Hsx & _).
      rewrite Hx. simpl. rewrite Hsx. split; split.
      * intros _. exists c. split; [reflexivity|exact Hst].
      * reflexivity.
      * discriminate.
      * intros Hn. destruct Hn. exists c. split; [reflexivity|exact Hst].
    + rewrite (bool_decide_eq_false_2 _ Hst).
      eexists. split; [reflexivity|]. unfold statusOf. unfold_wrappers.
      destruct (lookup_marked now v1.KafkaSourceCondSet
                  v1.KafkaConditionDeployed apis.ConditionFalse
                  "DeploymentUnavailable"
                  (fmt.Sprintf "The Deployment '%s' is unavailable."
                     [Deployment.Name d])
                  (v1.Conditions s) Deployed_not_Ready) as (x & Hx & Hsx & _).
      rewrite Hx. simpl. rewrite Hsx. split; split.
      * discriminate.
      * intros (c' & Hc' & Hst'). injection Hc' as <-. contradiction.
      * intros _ (c' & Hc' & Hst'). injection Hc' as <-. contradiction.
      * reflexivity.
  - eexists. split; [reflexivity|]. unfold statusOf. unfold_wrappers.
    destruct (lookup_marked now v1.KafkaSourceCondSet
                v1.KafkaConditionDeployed apis.ConditionFalse
                "DeploymentUnavailable"
                (fmt.Sprintf "The Deployment '%s' is unavailable."
                   [Deployment.Name d])
                (v1.Conditions s) Deployed_not_Ready) as (x & Hx & Hsx & _).
    rewrite Hx. simpl. rewrite Hsx. split; split.
    + discriminate.
    + intros (c' & Hc' & _). discriminate.
    + intros _ (c' & Hc' & _). discriminate.
    + reflexivity.
Qed.

(** X13: [UpdateConsumerGroupStatus] and the mark operations do not
    interfere: updating the claims before a mark operation or after it
    gives the same status (or the same panic); the update changes no
    condition and not the readiness; and of two updates in a row the later
    one stands. *)
Theorem UpdateConsumerGroupStatus_commutes (cs : apis.ConditionSet)
    (call : v1.MarkCall) (status status' : string)
    (s : v1.KafkaSourceStatus) :
  v1.mark now cs call (v1.UpdateConsumerGroupStatus status s)
  = (s' ← v1.mark now cs call s;
     mret (v1.UpdateConsumerGroupStatus status s')) /\
  (forall t, v1.GetCondition t (v1.UpdateConsumerGroupStatus status s)
             = v1.GetCondition t s) /\
  v1.IsReady cs (v1.UpdateConsumerGroupStatus status s) = v1.IsReady cs s /\
  v1.UpdateConsumerGroupStatus status
    (v1.UpdateConsumerGroupStatus status' s)
  = v1.UpdateConsumerGroupStatus status s.
Proof.
  split; [|repeat split].
  destruct call; try reflexivity.
  - destruct addr as [a|]; [|reflexivity].
    unfold v1.mark, v1.MarkSink. cbn [mbind Result_bind deref mret Result_ret].
    destruct (v1.urlPresent a); reflexivity.
  - destruct d as [dv|]; [|reflexivity].
    unfold v1.mark, v1.MarkDeployed, duck.DeploymentIsAvailable.
    cbn [mbind Result_bind deref mret Result_ret].
    match goal with |- context [if ?b then _ else _] => destruct b end;
      reflexivity.
Qed.

End LifecycleFurther.

(** An unavailable deployment marked on a status that counts two
    consumers: the count stays. *)
Lemma mark_keeps_other_fields_witness :
  exists s',
    v1.MarkDeployed 7%Z v1.KafkaSourceCondSet (Some unavailableDeployment)
      resolvedStatus = Returns s' /\
    v1.Claims s' = v1.Claims resolvedStatus /\
    (v1.SinkURI s' = v1.SinkURI resolvedStatus /\
     v1.SinkCACerts s' = v1.SinkCACerts resolvedStatus /\
     v1.SinkAudience s' = v1.SinkAudience resolvedStatus) /\
    v1.Consumers s' = 2%Z.
Proof.
  eexists. split; [reflexivity|].
  apply (mark_keeps_other_fields (H := textURL) 7%Z v1.KafkaSourceCondSet
           (v1.CallMarkDeployed (Some unavailableDeployment)) resolvedStatus).
  reflexivity.
Defined.

(** [MarkNoSink] on a status whose key type was marked correct: the
    KeyTypeCorrect condition is untouched. *)
Lemma mark_keeps_other_conditions_witness :
  let s := v1.MarkKeyTypeCorrect 1%Z v1.KafkaSourceCondSet
             (emptyStatus (H := textURL)) in
  v1.GetCondition v1.KafkaConditionKeyType
    (v1.MarkNoSink 2%Z v1.KafkaSourceCondSet "NotFound" "no sink" [] s)
  = v1.GetCondition v1.KafkaConditionKeyType s.
Proof.
  intros s.
  apply (mark_keeps_other_conditions (H := textURL) 2%Z v1.KafkaSourceCondSet
           (v1.CallMarkNoSink "NotFound" "no sink" []) s).
  - reflexivity.
  - discriminate.
  - discriminate.
Defined.

(** A connection failure reported with a [%s] format: the condition holds
    the reason and the rendered message. *)
Lemma reason_and_message_read_back_witness :
  recordedAs
    (v1.MarkConnectionNotEstablished (H := textURL) 4%Z v1.KafkaSourceCondSet
       "DialTimeout" "dial %s failed" ["broker"] emptyStatus)
    v1.KafkaConditionConnectionEstablished apis.ConditionFalse
    "DialTimeout" "dial broker failed".
Proof.
  pose proof (reason_and_message_read_back (H := textURL) 4%Z
                "DialTimeout" "dial %s failed" ["broker"] emptyStatus eq_refl)
    as Hall.
  destruct Hall as (_ & _ & _ & _ & Hconnection & _).
  exact Hconnection.
Defined.

(** ** A nil callback *)

Example Enqueue_nil_callback :
  consumergroup.EnqueueFunc (H := strings.ASCII) (Q := list NamespacedName.t)
    "Trigger" None (ConsumerGroupPtr (Some (ownedBy [("Trigger", "a")]))) []
  = Panics NilPointerDereference /\
  consumergroup.EnqueueFunc (H := strings.ASCII) (Q := list NamespacedName.t)
    "Trigger" None (ConsumerGroupPtr (Some (ownedBy [("Broker", "x")]))) []
  = Returns [] /\
  consumergroup.EnqueueFunc (H := strings.ASCII)
    "Trigger" recording
    (ConsumerGroupPtr (Some (ownedBy [("Trigger", "a")]))) []
  = Returns [ {| NamespacedName.Namespace := "ns";
                 NamespacedName.Name := "a" |} ].
Proof. repeat split. Qed.
